(** * SchoolManApp: route protection, loading flag and role endpoints

    A shallow embedding of the authorization core of the application:

    - [RoutePolicy]: the route tables and helpers of
      [components/RouteProtector.tsx];
    - [Protector]: the three effects of the [RouteProtector] component, run
      under React's commit discipline (effects of one commit see the state
      captured by that render, queued updates land afterwards, an effect
      re-runs only when one of its dependencies changed);
    - [Layout]: what the root layout mounts, with [AuthLoadingOverlay];
    - [Backend]: the Prisma user table and Clerk's public metadata;
    - [RoleApi]: [pages/api/user/role.ts];
    - [UpdateRoleApi]: [pages/api/user/update-role.ts]. *)

From Stdlib Require Import String Ascii List Bool Arith Lia.
From stdpp Require Import base option list gmap strings.
Import ListNotations.

Local Open Scope string_scope.
Local Open Scope list_scope.

(* ===================================================================== *)
(** ** JavaScript values as the code uses them *)

Module Js.

(** [s.startsWith(p)]. *)
Definition startsWith (s p : string) : bool := String.prefix p s.

(** Truthiness of a [string | null | undefined] value: only a non-empty
    string is truthy. *)
Definition truthy (v : option string) : bool :=
  match v with
  | Some s => negb (String.eqb s EmptyString)
  | None => false
  end.

(** [v || null] on a [string | undefined] value. *)
Definition or_null (v : option string) : option string :=
  if truthy v then v else None.

(** [xs.includes(x)] on an array of strings. *)
Definition includes (xs : list string) (x : string) : bool :=
  existsb (String.eqb x) xs.

(** [xs.some(f)]. *)
Definition some {A} (f : A -> bool) (xs : list A) : bool := existsb f xs.

(** The result of evaluating an expression that may throw. *)
Inductive Completion (A : Type) : Type :=
| Normal (a : A)
| Throw.
Arguments Normal {A} a.
Arguments Throw {A}.

End Js.

(* ===================================================================== *)
(** ** Route tables *)

Module RoutePolicy.
Import Js.

(** [DASHBOARD_ROUTES]: an object literal; [Object.keys] lists its keys in
    the order they are written. *)
Definition DASHBOARD_ROUTES : list (string * list string) :=
  [ ("/admin", ["admin"]);
    ("/teacher", ["teacher"]);
    ("/student", ["student"]);
    ("/parent", ["parent"]) ].

Definition LIST_ROUTES : list string :=
  [ "/list"; "/profile"; "/settings"; "/logout" ].

Definition keys {V} (o : list (string * V)) : list string := map fst o.

(** [o[k]] on an object literal. *)
Fixpoint get {V} (o : list (string * V)) (k : string) : option V :=
  match o with
  | [] => None
  | (k', v) :: o' => if String.eqb k' k then Some v else get o' k
  end.

Definition PROTECTED_ROUTES : list string :=
  keys DASHBOARD_ROUTES ++ LIST_ROUTES.

Definition isProtectedRoute (pathname : string) : bool :=
  some (fun route => startsWith pathname route) PROTECTED_ROUTES.

(** The loop of [getDashboardRoute], over an arbitrary key list. *)
Fixpoint firstDashboardMatch (routes : list string) (pathname : string)
  : option string :=
  match routes with
  | [] => None
  | route :: rest =>
      if startsWith pathname (route +:+ "/") || String.eqb pathname route
      then Some route
      else firstDashboardMatch rest pathname
  end.

Definition getDashboardRoute (pathname : string) : option string :=
  firstDashboardMatch (keys DASHBOARD_ROUTES) pathname.

(** The test of one loop iteration, named for the statements below. *)
Definition segmentMatch (route pathname : string) : bool :=
  startsWith pathname (route +:+ "/") || String.eqb pathname route.

End RoutePolicy.

(* ===================================================================== *)
(** ** The RouteProtector component *)

Module Protector.
Import Js RoutePolicy.

(** Clerk's user object, as far as [getUserRoleFromClaims] reads it:
    [user?.publicMetadata?.role].  Reading [publicMetadata] may throw
    (the code wraps the access in [try]/[catch]). *)
Record PublicMetadata := { role : option string }.
Record ClerkUser :=
  { publicMetadata : Completion (option PublicMetadata) }.

(** What the hooks return in one render: [usePathname], [useAuth],
    [useUser]. *)
Record Hooks :=
  { pathname : option string;
    isLoaded : bool;
    userId : option string;
    user : option ClerkUser }.

(** The component's own [useState] cells. *)
Record LocalState :=
  { userRole : option string;
    isRoleLoaded : bool }.

(** What an effect does: state updates queued for the next render, router
    calls and console output, in program order.  [ReadClaims] marks a call
    of [getUserRoleFromClaims]. *)
Inductive Cmd :=
| SetAuthLoading (b : bool)
| SetUserRole (r : option string)
| SetIsRoleLoaded (b : bool)
| RouterPush (url : string)
| ReadClaims
| ConsoleError
| ConsoleWarn (userId : option string) (userRole : option string)
              (dashboardRoute : string)
| TypeError.

#[global] Instance PublicMetadata_eq_dec : EqDecision PublicMetadata.
Proof. solve_decision. Defined.
#[global] Instance Completion_eq_dec {A} `{EqDecision A} :
  EqDecision (Completion A).
Proof. solve_decision. Defined.
#[global] Instance ClerkUser_eq_dec : EqDecision ClerkUser.
Proof. solve_decision. Defined.
#[global] Instance Hooks_eq_dec : EqDecision Hooks.
Proof. solve_decision. Defined.
#[global] Instance LocalState_eq_dec : EqDecision LocalState.
Proof. solve_decision. Defined.
#[global] Instance Cmd_eq_dec : EqDecision Cmd.
Proof. solve_decision. Defined.

(** [getUserRoleFromClaims(user)]: the role and the console output of the
    [catch] branch. *)
Definition readRole (user : option ClerkUser)
  : Completion (option string) :=
  match user with
  | None => Normal None
  | Some u =>
      match publicMetadata u with
      | Throw => Throw
      | Normal None => Normal None
      | Normal (Some m) => Normal (role m)
      end
  end.

Definition getUserRoleFromClaims (user : option ClerkUser)
  : option string * list Cmd :=
  match readRole user with
  | Normal r => (or_null r, [])
  | Throw => (None, [ConsoleError])
  end.

(** [pathname && isProtectedRoute(pathname)]. *)
Definition onProtectedRoute (h : Hooks) : bool :=
  match pathname h with
  | Some p => negb (String.eqb p EmptyString) && isProtectedRoute p
  | None => false
  end.

(** EFFECT 0. *)
Definition effect0 (h : Hooks) : list Cmd :=
  if onProtectedRoute h
  then [SetAuthLoading true]
  else [SetAuthLoading false].

(** EFFECT 1. *)
Definition effect1 (h : Hooks) : list Cmd :=
  if negb (isLoaded h) then []
  else if negb (truthy (userId h)) || negb (bool_decide (is_Some (user h)))
  then [SetIsRoleLoaded true; SetUserRole None]
  else
    let '(r, out) := getUserRoleFromClaims (user h) in
    [ReadClaims] ++ out ++ [SetUserRole r; SetIsRoleLoaded true].

(** EFFECT 2, with the state captured by the render it belongs to. *)
Definition effect2 (h : Hooks) (st : LocalState) : list Cmd :=
  if negb (isLoaded h) then []
  else if onProtectedRoute h && negb (isRoleLoaded st) then []
  else if negb (onProtectedRoute h) then [SetAuthLoading false]
  else if negb (truthy (userId h))
  then [SetAuthLoading false; RouterPush "/sign-in"]
  else
    match getDashboardRoute (default EmptyString (pathname h)) with
    | Some dashboardRoute =>
        match get DASHBOARD_ROUTES dashboardRoute with
        | None => [TypeError]
        | Some allowedRoles =>
            if negb (truthy (userRole st))
               || negb (includes allowedRoles
                          (default EmptyString (userRole st)))
            then [ConsoleWarn (userId h) (userRole st) dashboardRoute;
                  SetAuthLoading false;
                  RouterPush "/sign-in"]
            else [SetAuthLoading false]
        end
    | None => [SetAuthLoading false]
    end.

(** *** React's commit discipline *)

(** The decision a run of EFFECT 2 announces, read off what it does: a
    redirect is a denial, lowering the loader without one is an
    admission, doing neither leaves the check pending. *)
Inductive Decision := PENDING | ALLOW | DENY.

#[global] Instance Decision_eq_dec : EqDecision Decision.
Proof. solve_decision. Defined.

Definition isPush (c : Cmd) : bool :=
  match c with RouterPush _ => true | _ => false end.

Definition lowersLoader (c : Cmd) : bool :=
  match c with SetAuthLoading false => true | _ => false end.

Definition decisionOf (cmds : list Cmd) : Decision :=
  if existsb isPush cmds then DENY
  else if existsb lowersLoader cmds then ALLOW
  else PENDING.

(** The application state the component lives in: the context cell of
    [AuthLoadingProvider], the component's own cells, everything the
    effects did so far, the dependency values of the last committed
    render ([None] before the first one), and the decision of the latest
    run of EFFECT 2. *)
Record World :=
  { isAuthLoading : bool;
    local : LocalState;
    trace : list Cmd;
    rendered : option (Hooks * LocalState);
    decision : Decision }.

(** [useState(true)] in the provider, [useState(null)] and
    [useState(false)] in the component. *)
Definition mount : World :=
  {| isAuthLoading := true;
     local := {| userRole := None; isRoleLoaded := false |};
     trace := [];
     rendered := None;
     decision := PENDING |}.

(** The effect of one command on the context cell and on the
    component's cells. *)
Definition flagStep (b : bool) (c : Cmd) : bool :=
  match c with
  | SetAuthLoading b' => b'
  | _ => b
  end.

Definition localStep (st : LocalState) (c : Cmd) : LocalState :=
  match c with
  | SetUserRole r => {| userRole := r; isRoleLoaded := isRoleLoaded st |}
  | SetIsRoleLoaded b => {| userRole := userRole st; isRoleLoaded := b |}
  | _ => st
  end.

Definition apply (w : World) (c : Cmd) : World :=
  {| isAuthLoading := flagStep (isAuthLoading w) c;
     local := localStep (local w) c;
     trace := trace w ++ [c];
     rendered := rendered w;
     decision := decision w |}.

Definition run (w : World) (cmds : list Cmd) : World :=
  fold_left apply cmds w.

(** Dependency arrays (the stable [router] and [setAuthLoading] left
    out). *)
Definition deps0 (h : Hooks) := pathname h.
Definition deps1 (h : Hooks) := (isLoaded h, userId h, user h).
Definition deps2 (h : Hooks) (st : LocalState) :=
  (pathname h, isLoaded h, isRoleLoaded st, userId h, userRole st).

Definition changed {A} `{EqDecision A} (prev : option A) (cur : A) : bool :=
  match prev with
  | None => true
  | Some p => negb (bool_decide (p = cur))
  end.

Definition runs0 (w : World) (h : Hooks) : bool :=
  changed (deps0 <$> (fst <$> rendered w)) (deps0 h).
Definition runs1 (w : World) (h : Hooks) : bool :=
  changed (deps1 <$> (fst <$> rendered w)) (deps1 h).
Definition runs2 (w : World) (h : Hooks) : bool :=
  changed ((fun r => deps2 (fst r) (snd r)) <$> rendered w)
          (deps2 h (local w)).

(** What the effects of one commit do, in declaration order, all with the
    state of the render being committed. *)
Definition commitCmds (h : Hooks) (w : World) : list Cmd :=
  (if runs0 w h then effect0 h else [])
    ++ (if runs1 w h then effect1 h else [])
    ++ (if runs2 w h then effect2 h (local w) else []).

Definition commit (h : Hooks) (w : World) : World :=
  let w' := run w (commitCmds h w) in
  {| isAuthLoading := isAuthLoading w';
     local := local w';
     trace := trace w';
     rendered := Some (h, local w);
     decision :=
       if runs2 w h then decisionOf (effect2 h (local w))
       else decision w |}.

(** Render and commit again for as long as the component's own state
    changed. *)
Fixpoint settle (fuel : nat) (h : Hooks) (w : World) : option World :=
  match fuel with
  | 0 => None
  | S n =>
      let w' := commit h w in
      if bool_decide (local w' = local w) then Some w'
      else settle n h w'
  end.

End Protector.

(* ===================================================================== *)
(** ** What the root layout mounts *)

Module Layout.

Inductive Node :=
| LoaderOverlay      (* the fixed, full-screen [div] around [PageLoader] *)
| SignInLoaderNode
| Page (content : string)
| Analytics
| SpeedInsights.

#[global] Instance Node_eq_dec : EqDecision Node.
Proof. solve_decision. Defined.

(** [AuthLoadingOverlay]: [if (!isAuthLoading) return null]. *)
Definition AuthLoadingOverlay (isAuthLoading : bool) : list Node :=
  if negb isAuthLoading then [] else [LoaderOverlay].

(** [SignInLoader]: [if (!isVisible) return null]. *)
Definition SignInLoader (isVisible : bool) : list Node :=
  if negb isVisible then [] else [SignInLoaderNode].

(** [RouteProtector]'s render: [return <>{children}</>]. *)
Definition RouteProtector (children : list Node) : list Node := children.

(** The body of [RootLayout], inside [AuthLoadingProvider]. *)
Definition RootLayout (isAuthLoading signInVisible : bool)
           (children : list Node) : list Node :=
  AuthLoadingOverlay isAuthLoading
    ++ SignInLoader signInVisible
    ++ RouteProtector (children ++ [Analytics; SpeedInsights]).

(** The tree mounted in a given application state. *)
Definition mounted (w : Protector.World) (signInVisible : bool)
           (children : list Node) : list Node :=
  RootLayout (Protector.isAuthLoading w) signInVisible children.

End Layout.

(* ===================================================================== *)
(** ** The two stores behind the API routes *)

Module Backend.
Import Js.

(** A row of the Prisma [user] table, keyed by the Clerk user id. *)
Record UserRow := { email : string; role : string }.

#[global] Instance UserRow_eq_dec : EqDecision UserRow.
Proof. solve_decision. Defined.

(** The database and Clerk.  [clerkOutcomes] says, call by call, whether
    the next requests to Clerk's Backend API go through ([true]) or fail;
    once the list is used up every call goes through. *)
Record State :=
  { users : gmap string UserRow;
    dbOnline : bool;
    publicMetadataRole : gmap string string;
    clerkOutcomes : list bool;
    console : list string }.

(** Server code: state passing with exceptions. *)
Definition M (A : Type) : Type := State -> Completion A * State.

Definition ret {A} (a : A) : M A := fun s => (Normal a, s).
Definition throw {A} : M A := fun s => (Throw, s).
Definition bind {A B} (m : M A) (k : A -> M B) : M B :=
  fun s =>
    match m s with
    | (Normal a, s') => k a s'
    | (Throw, s') => (Throw, s')
    end.
Definition tryCatch {A} (m : M A) (handler : M A) : M A :=
  fun s =>
    match m s with
    | (Normal a, s') => (Normal a, s')
    | (Throw, s') => handler s'
    end.

Definition withUsers (f : gmap string UserRow -> gmap string UserRow)
           (s : State) : State :=
  {| users := f (users s); dbOnline := dbOnline s;
     publicMetadataRole := publicMetadataRole s;
     clerkOutcomes := clerkOutcomes s; console := console s |}.

Definition log (line : string) : M unit :=
  fun s =>
    (Normal tt,
     {| users := users s; dbOnline := dbOnline s;
        publicMetadataRole := publicMetadataRole s;
        clerkOutcomes := clerkOutcomes s;
        console := console s ++ [line] |}).

(** [prisma.user.findUnique({ where: { id }, select: { role: true } })]. *)
Definition findUnique (id : string) : M (option string) :=
  fun s =>
    if dbOnline s then (Normal (role <$> users s !! id), s)
    else (Throw, s).

(** [prisma.user.create({ data: { id, email, role }, select: { role } })];
    a row with that id already there violates the primary key. *)
Definition create (id : string) (row : UserRow) : M string :=
  fun s =>
    if dbOnline s then
      match users s !! id with
      | Some _ => (Throw, s)
      | None => (Normal (role row), withUsers (insert id row) s)
      end
    else (Throw, s).

(** [prisma.user.update({ where: { id }, data: { role }, select: { role } })];
    throws when there is no such row. *)
Definition update (id : string) (newRole : string) : M string :=
  fun s =>
    if dbOnline s then
      match users s !! id with
      | None => (Throw, s)
      | Some row =>
          (Normal newRole,
           withUsers (insert id {| email := email row; role := newRole |}) s)
      end
    else (Throw, s).

(** [clerkClient().users.updateUserMetadata(id, { publicMetadata })], with
    [publicMetadata = { role }]. *)
Definition updateUserMetadata (id : string) (newRole : string) : M unit :=
  fun s =>
    let ok := match clerkOutcomes s with [] => true | o :: _ => o end in
    let s' :=
      {| users := users s; dbOnline := dbOnline s;
         publicMetadataRole :=
           if ok then <[id := newRole]> (publicMetadataRole s)
           else publicMetadataRole s;
         clerkOutcomes := tail (clerkOutcomes s);
         console := console s |} in
    (if ok then Normal tt else Throw, s').

(** Values found in a parsed JSON body. *)
Inductive JsValue :=
| JUndefined
| JNull
| JString (s : string)
| JOther (truthy : bool).  (* a number, boolean, array or object *)

Definition truthyValue (v : JsValue) : bool :=
  match v with
  | JUndefined | JNull => false
  | JString s => negb (String.eqb s EmptyString)
  | JOther t => t
  end.

Definition isString (v : JsValue) : bool :=
  match v with JString _ => true | _ => false end.

(** A request: the method, the parsed body, and who is asking (the Clerk
    session [auth()] would report, if any). *)
Record Request :=
  { method : string;
    body : gmap string JsValue;
    caller : option string }.

Inductive ResponseData :=
| RoleOf (role : string)
| ErrorOf (error : string).

Record Response := { status : nat; json : ResponseData }.

#[global] Instance ResponseData_eq_dec : EqDecision ResponseData.
Proof. solve_decision. Defined.
#[global] Instance Response_eq_dec : EqDecision Response.
Proof. solve_decision. Defined.

(** [req.body.k]: a missing property reads as [undefined]. *)
Definition field (req : Request) (k : string) : JsValue :=
  default JUndefined (body req !! k).

Definition respond (code : nat) (data : ResponseData) : M Response :=
  ret {| status := code; json := data |}.

(** A handler always answers: its outermost [try]/[catch] leaves no throw. *)
Definition answer (m : M Response) (s : State) : Response * State :=
  match m s with
  | (Normal r, s') => (r, s')
  | (Throw, s') =>
      ({| status := 500; json := ErrorOf "Internal server error" |}, s')
  end.

End Backend.

#[global] Instance M_ret : MRet Backend.M := @Backend.ret.
#[global] Instance M_bind : MBind Backend.M :=
  fun A B k m => Backend.bind m k.

(* ===================================================================== *)
(** ** POST /api/user/role *)

Module RoleApi.
Import Js Backend.

Definition handler (req : Request) : M Response :=
  if negb (String.eqb (method req) "POST")
  then respond 405 (ErrorOf "Method not allowed")
  else
    tryCatch
      (let userId := field req "userId" in
       if negb (truthyValue userId) || negb (isString userId)
       then respond 400 (ErrorOf "User ID is required")
       else
         let id := match userId with JString s => s | _ => EmptyString end in
         found ← findUnique id;
         r ← match found with
             | Some r => ret r
             | None =>
                 r ← create id {| email := EmptyString; role := "student" |};
                 log ("Auto-created user " +:+ id +:+ " with role: student");;
                 ret r
             end;
         respond 200 (RoleOf r))
      (log "Error fetching user role:";;
       respond 500 (ErrorOf "Internal server error")).

Definition serve (req : Request) (s : State) : Response * State :=
  answer (handler req) s.

End RoleApi.

(* ===================================================================== *)
(** ** POST /api/user/update-role *)

Module UpdateRoleApi.
Import Js Backend.

Definition validRoles : list string :=
  [ "admin"; "teacher"; "student"; "parent" ].

(** [["admin", ...].includes(newRole)]: only a string can be found. *)
Definition includesValue (xs : list string) (v : JsValue) : bool :=
  match v with
  | JString s => includes xs s
  | _ => false
  end.

Definition handler (req : Request) : M Response :=
  if negb (String.eqb (method req) "POST")
  then respond 405 (ErrorOf "Method not allowed")
  else
    tryCatch
      (let userId := field req "userId" in
       let newRole := field req "newRole" in
       if negb (truthyValue userId) || negb (isString userId)
       then respond 400 (ErrorOf "User ID is required")
       else if negb (truthyValue newRole)
               || negb (includesValue validRoles newRole)
       then respond 400 (ErrorOf "Valid role is required")
       else
         let id := match userId with JString s => s | _ => EmptyString end in
         let r := match newRole with JString s => s | _ => EmptyString end in
         updated ← update id r;
         updateUserMetadata id r;;
         log ("Updated user " +:+ id +:+ " role to: " +:+ r);;
         respond 200 (RoleOf updated))
      (log "Error updating user role:";;
       respond 500 (ErrorOf "Internal server error")).

Definition serve (req : Request) (s : State) : Response * State :=
  answer (handler req) s.

End UpdateRoleApi.

(* ===================================================================== *)
(** ** Vocabulary of the specification *)

Module Spec.
Import Js RoutePolicy.

(** Longest-prefix-wins lookup, in the words of the specification: the
    result is an entry whose prefix starts the path and no matching entry
    is longer; the result is null exactly when no entry's prefix starts
    the path. *)
Definition LongestPrefixLookup (table : list string)
           (lookup : string -> option string) : Prop :=
  forall path,
    match lookup path with
    | Some r =>
        In r table /\ startsWith path r = true
        /\ forall r', In r' table -> startsWith path r' = true ->
                 String.length r' <= String.length r
    | None =>
        forall r, In r table -> startsWith path r = false
    end.

(** The role EFFECT 1 stores once Clerk has loaded. *)
Definition resolvedRole (h : Protector.Hooks) : option string :=
  if negb (truthy (Protector.userId h))
     || negb (bool_decide (is_Some (Protector.user h)))
  then None
  else fst (Protector.getUserRoleFromClaims (Protector.user h)).

(** The component's cells once EFFECT 1 has run under a loaded Clerk. *)
Definition loadedState (h : Protector.Hooks) : Protector.LocalState :=
  {| Protector.userRole := resolvedRole h;
     Protector.isRoleLoaded := true |}.

(** The application states the component can be in: freshly mounted, or
    after any sequence of commits under whatever the hooks return. *)
Inductive Reachable : Protector.World -> Prop :=
| reach_mount : Reachable Protector.mount
| reach_commit h w : Reachable w -> Reachable (Protector.commit h w).

(** A navigation: the first render, or a render under another pathname
    than the last committed one. *)
Definition Navigates (w : Protector.World) (h : Protector.Hooks) : Prop :=
  match Protector.rendered w with
  | None => True
  | Some (h', _) => Protector.pathname h' <> Protector.pathname h
  end.

(** A signed-in user whose token carries role [r], on path [p]. *)
Definition signedIn (p uid r : string) : Protector.Hooks :=
  {| Protector.pathname := Some p;
     Protector.isLoaded := true;
     Protector.userId := Some uid;
     Protector.user :=
       Some {| Protector.publicMetadata :=
                 Normal (Some {| Protector.role := Some r |}) |} |}.

(** Nobody signed in, Clerk loaded, on path [p]. *)
Definition signedOut (p : string) : Protector.Hooks :=
  {| Protector.pathname := Some p;
     Protector.isLoaded := true;
     Protector.userId := None;
     Protector.user := None |}.

Definition ROLES : list string := [ "admin"; "teacher"; "student"; "parent" ].

(** How often the claims were read. *)
Definition claimsReads (t : list Protector.Cmd) : nat :=
  count_occ Protector.Cmd_eq_dec t Protector.ReadClaims.

(** A signed-in user whose claims cannot be read, on path [p]. *)
Definition unreadable (p uid : string) : Protector.Hooks :=
  {| Protector.pathname := Some p;
     Protector.isLoaded := true;
     Protector.userId := Some uid;
     Protector.user := Some {| Protector.publicMetadata := Throw |} |}.

(** Clerk still loading, on path [p]. *)
Definition loading (p : string) : Protector.Hooks :=
  {| Protector.pathname := Some p;
     Protector.isLoaded := false;
     Protector.userId := None;
     Protector.user := None |}.


(** The render layer as the specification words it: nothing of the
    protected subtree is mounted while the loading flag is up. *)
Definition MountGatedByFlag : Prop :=
  forall (w : Protector.World) (signInVisible : bool)
         (children : list Layout.Node) (page : Layout.Node),
    Protector.isAuthLoading w = true ->
    In page children ->
    ~ In page (Layout.mounted w signInVisible children).

(** A well-formed request to the role endpoint, from [caller]. *)
Definition roleRequest (caller : option string) (userId : string)
  : Backend.Request :=
  {| Backend.method := "POST";
     Backend.body := {[ "userId" := Backend.JString userId ]};
     Backend.caller := caller |}.

(** A well-formed request to the update endpoint, from [caller]. *)
Definition updateRequest (caller : option string) (userId newRole : string)
  : Backend.Request :=
  {| Backend.method := "POST";
     Backend.body :=
       <[ "newRole" := Backend.JString newRole ]>
         {[ "userId" := Backend.JString userId ]};
     Backend.caller := caller |}.

(** What the route protector sees for user [uid] on path [p] once the
    session token carries what Clerk holds as public metadata. *)
Definition tokenFor (s : Backend.State) (p uid : string) : Protector.Hooks :=
  {| Protector.pathname := Some p;
     Protector.isLoaded := true;
     Protector.userId := Some uid;
     Protector.user :=
       Some {| Protector.publicMetadata :=
                 Normal
                   (Some {| Protector.role :=
                              Backend.publicMetadataRole s !! uid |}) |} |}.

(** Stores with one student, [u2], known to the table and to Clerk. *)
Definition oneStudent : Backend.State :=
  {| Backend.users :=
       {[ "u2" := {| Backend.email := "u2@school.test";
                     Backend.role := "student" |} ]};
     Backend.dbOnline := true;
     Backend.publicMetadataRole := {[ "u2" := "student" ]};
     Backend.clerkOutcomes := [];
     Backend.console := [] |}.

(** The same stores when the next call to Clerk fails and the one after
    it would go through. *)
Definition oneStudentClerkHiccup : Backend.State :=
  {| Backend.users := Backend.users oneStudent;
     Backend.dbOnline := true;
     Backend.publicMetadataRole := Backend.publicMetadataRole oneStudent;
     Backend.clerkOutcomes := [false; true];
     Backend.console := [] |}.

(** A null lookup means that the path is public. *)
Definition NullMeansPublic (lookup : string -> option string) : Prop :=
  forall path, lookup path = None -> isProtectedRoute path = false.

End Spec.

(* ===================================================================== *)
(** ** POST /api/webhooks/clerk *)

Module Webhook.
Import Js Backend.

(** What the handler reads of a verified event:
    [evt.type], [evt.data.id] and
    [evt.data.email_addresses?.[0]?.email_address]. *)
Record EmailAddress := { email_address : option string }.
Record EventData :=
  { id : string;
    email_addresses : option (list EmailAddress) }.
Record Event := { type : string; data : EventData }.

(** The request: the three Svix headers as [headers().get] returns them and
    the raw body. *)
Record Request :=
  { svix_id : option string;
    svix_timestamp : option string;
    svix_signature : option string;
    body : string }.

(** [new Webhook(secret).verify(body, headers)]: the parsed event, or a
    throw when the signature does not fit.  Svix is a library; the handler
    is given its verifier. *)
Definition Verifier : Type :=
  string -> string -> string -> string -> Completion Event.

(** [new Response(text, { status })]. *)
Record Reply := { status : nat; text : string }.

#[global] Instance Reply_eq_dec : EqDecision Reply.
Proof. solve_decision. Defined.

Definition reply (code : nat) (t : string) : M Reply :=
  ret {| status := code; text := t |}.

(** [prisma.user.update({ where: { id }, data: { email } })]; throws when
    there is no such row. *)
Definition updateEmail (id : string) (newEmail : string) : M unit :=
  fun s =>
    if dbOnline s then
      match users s !! id with
      | None => (Throw, s)
      | Some row =>
          (Normal tt,
           withUsers (insert id {| email := newEmail; role := role row |}) s)
      end
    else (Throw, s).

(** [prisma.user.delete({ where: { id } })]; throws when there is no such
    row. *)
Definition deleteUser (id : string) : M unit :=
  fun s =>
    if dbOnline s then
      match users s !! id with
      | None => (Throw, s)
      | Some _ => (Normal tt, withUsers (delete id) s)
      end
    else (Throw, s).

Definition primaryEmail (d : EventData) : option string :=
  match email_addresses d with
  | Some (a :: _) => email_address a
  | _ => None
  end.

(** The [user.updated] and [user.deleted] blocks and the final answer. *)
Definition afterCreated (evt : Event) : M Reply :=
  (if String.eqb (type evt) "user.updated" then
     match primaryEmail (data evt) with
     | Some e =>
         if truthy (Some e) then
           updateEmail (id (data evt)) e;;
           log ("User updated in database: " +:+ e)
         else mret tt
     | None => mret tt
     end
   else mret tt);;
  (if String.eqb (type evt) "user.deleted" then
     deleteUser (id (data evt));;
     log ("User deleted from database: " +:+ id (data evt))
   else mret tt);;
  reply 200 "Webhook processed".

(** STEP 4 of the handler: the three event blocks inside [try]. *)
Definition process (evt : Event) : M Reply :=
  tryCatch
    (if String.eqb (type evt) "user.created" then
       match primaryEmail (data evt) with
       | Some e =>
           if truthy (Some e) then
             newRole ← create (id (data evt))
                              {| email := e; role := "student" |};
             updateUserMetadata (id (data evt)) newRole;;
             log ("User created in database: " +:+ e
                    +:+ " with role: student");;
             afterCreated evt
           else reply 400 "Email not found"
       | None => reply 400 "Email not found"
       end
     else afterCreated evt)
    (log "Webhook processing error:";;
     reply 500 "Error processing webhook").

Definition POST (verify : Verifier) (req : Request) : M Reply :=
  match svix_id req, svix_timestamp req, svix_signature req with
  | Some i, Some t, Some g =>
      if negb (truthy (Some i)) || negb (truthy (Some t))
         || negb (truthy (Some g))
      then reply 400 "Error occured -- no svix headers"
      else
        match verify (body req) i t g with
        | Throw =>
            log "Error verifying webhook:";;
            reply 400 "Error occured"
        | Normal evt => process evt
        end
  | _, _, _ => reply 400 "Error occured -- no svix headers"
  end.

(** The handler's answer and the state it leaves; nothing is thrown past
    the [catch] blocks, the last case is never taken. *)
Definition serve (verify : Verifier) (req : Request) (s : State)
  : Reply * State :=
  match POST verify req s with
  | (Normal r, s') => (r, s')
  | (Throw, s') => ({| status := 500; text := "Error processing webhook" |}, s')
  end.

End Webhook.

(* ===================================================================== *)
(** ** lib/auth: the demo sign-in state in localStorage *)

Module DemoAuth.
Import Js.

Definition AUTH_KEY : string := "sma_auth".

Record DemoAuth := { role : option string; authenticated : bool }.

#[global] Instance DemoAuth_eq_dec : EqDecision DemoAuth.
Proof. solve_decision. Defined.

(** [JSON.stringify] and [JSON.parse] at type [DemoAuth]. *)
Record Json :=
  { stringify : DemoAuth -> string;
    parse : string -> Completion DemoAuth }.

(** The page the helpers run in: whether there is a [window] at all (none
    while rendering on the server), whether its storage can be used (its
    methods throw otherwise), what the storage holds, and the events
    dispatched on the window so far. *)
Record Browser :=
  { hasWindow : bool;
    storageWorks : bool;
    items : gmap string string;
    dispatched : list string }.

Definition withItems (f : gmap string string -> gmap string string)
           (b : Browser) : Browser :=
  {| hasWindow := hasWindow b; storageWorks := storageWorks b;
     items := f (items b); dispatched := dispatched b |}.

Definition dispatchEvent (e : string) (b : Browser) : Browser :=
  {| hasWindow := hasWindow b; storageWorks := storageWorks b;
     items := items b; dispatched := dispatched b ++ [e] |}.

Definition unauthenticated : DemoAuth :=
  {| role := None; authenticated := false |}.

(** [getAuth]. *)
Definition getAuth (j : Json) (b : Browser) : DemoAuth :=
  if hasWindow b then
    if storageWorks b then
      match items b !! AUTH_KEY with
      | Some raw =>
          if negb (truthy (Some raw)) then unauthenticated
          else match parse j raw with
               | Normal a => a
               | Throw => unauthenticated
               end
      | None => unauthenticated
      end
    else unauthenticated
  else unauthenticated.

(** [setAuth]. *)
Definition setAuth (j : Json) (r : string) (b : Browser) : Browser :=
  let payload := {| role := Some r; authenticated := true |} in
  if hasWindow b && storageWorks b then
    let b1 := withItems (insert AUTH_KEY (stringify j payload)) b in
    let b2 := dispatchEvent "sma_auth_change" b1 in
    let b3 := withItems (insert "sma_show_signin_loader" "1") b2 in
    dispatchEvent "sma_show_signin" b3
  else b.

(** [clearAuth]. *)
Definition clearAuth (b : Browser) : Browser :=
  if hasWindow b && storageWorks b then
    dispatchEvent "sma_auth_change" (withItems (delete AUTH_KEY) b)
  else b.

Definition isAuthenticated (j : Json) (b : Browser) : bool :=
  authenticated (getAuth j b).

Definition getRole (j : Json) (b : Browser) : option string :=
  role (getAuth j b).

(** [SignInLoader]: whether the loader shows when the component mounts
    ([flag === "1"]), and what the timer does when it fires. *)
Definition signInLoaderOnMount (b : Browser) : bool :=
  if hasWindow b && storageWorks b then
    bool_decide (items b !! "sma_show_signin_loader" = Some "1")
  else false.

Definition signInLoaderTimer (b : Browser) : Browser :=
  if hasWindow b && storageWorks b then
    withItems (delete "sma_show_signin_loader") b
  else b.

End DemoAuth.

(* ===================================================================== *)
(** ** The side menu *)

Module SideMenu.
Import Js.

Record MenuItem :=
  { label : string;
    href : string;
    visible : list string }.

Definition everyone : list string :=
  [ "admin"; "teacher"; "student"; "parent" ].
Definition staff : list string := [ "admin"; "teacher" ].

(** [menuItems], the two groups in order. *)
Definition menuItems : list (string * list MenuItem) :=
  [ ("MENU",
     [ {| label := "Home"; href := "/"; visible := everyone |};
       {| label := "Teachers"; href := "/list/teachers"; visible := staff |};
       {| label := "Students"; href := "/list/students"; visible := staff |};
       {| label := "Parents"; href := "/list/parents"; visible := staff |};
       {| label := "Subjects"; href := "/list/subjects";
          visible := [ "admin" ] |};
       {| label := "Classes"; href := "/list/classes"; visible := staff |};
       {| label := "Lessons"; href := "/list/lessons"; visible := staff |};
       {| label := "Exams"; href := "/list/exams"; visible := everyone |};
       {| label := "Assignments"; href := "/list/assignments";
          visible := everyone |};
       {| label := "Results"; href := "/list/results"; visible := everyone |};
       {| label := "Attendance"; href := "/list/attendance";
          visible := everyone |};
       {| label := "Events"; href := "/list/events"; visible := everyone |};
       {| label := "Messages"; href := "/list/messages";
          visible := everyone |};
       {| label := "Announcements"; href := "/list/announcements";
          visible := everyone |};
       {| label := "Live Class"; href := "/list/liveclass";
          visible := everyone |} ]);
    ("OTHER",
     [ {| label := "Profile"; href := "/profile"; visible := everyone |};
       {| label := "Settings"; href := "/settings"; visible := everyone |};
       {| label := "Logout"; href := "/logout"; visible := everyone |} ]) ].

Definition allItems : list MenuItem := concat (map snd menuItems).

(** [currentRole ?? demoRole]; [demoRole] comes from [lib/data]. *)
Definition effectiveRole (demoRole : string) (currentRole : option string)
  : string :=
  default demoRole currentRole.

(** The [update] callback of the first effect:
    [isAuthenticated() ? getRole() : null]. *)
Definition currentRoleOf (j : DemoAuth.Json) (b : DemoAuth.Browser)
  : option string :=
  if DemoAuth.isAuthenticated j b then DemoAuth.getRole j b else None.

(** The entries the menu renders: [item.visible.includes(effectiveRole)]. *)
Definition rendered (effective : string) : list MenuItem :=
  filter (fun item => includes (visible item) effective = true) allItems.

(** What a click does, in order. *)
Inductive Action :=
| ShowLoader
| ItemClick
| SetPendingClose (target : option string)
| Push (url : string).

(** [handleHome]'s target: the dashboard of the current role, or the
    entry's own [href]. *)
Definition homeTarget (currentRole : option string) (item : MenuItem)
  : string :=
  if truthy currentRole then "/" +:+ default EmptyString currentRole
  else href item.

Definition handleHome (currentRole : option string) (lastPath : string)
           (item : MenuItem) : list Action :=
  let targetPath := homeTarget currentRole item in
  (if negb (String.eqb targetPath lastPath) then [ShowLoader] else [])
    ++ [ItemClick; SetPendingClose (Some targetPath); Push targetPath].


End SideMenu.

(* ===================================================================== *)
(** ** The dashboard layout's page loader *)

Module Dashboard.
Import Js.

(** [isLoading] and [lastPath]. *)
Record State := { isLoading : bool; lastPath : string }.

#[global] Instance State_eq_dec : EqDecision State.
Proof. solve_decision. Defined.

(** [useState(false)], [useState("")]. *)
Definition initial : State :=
  {| isLoading := false; lastPath := EmptyString |}.



(** What the shell shows: the page loader, or the page. *)
Definition shows (st : State) (children : list Layout.Node)
  : list Layout.Node :=
  if isLoading st then [Layout.LoaderOverlay] else children.


End Dashboard.

(* ===================================================================== *)
(** ** The theme script of the root layout *)

Module Theme.
Import Js.

Definition THEME_KEY : string := "sma_theme".

(** What the script touches: the storage (whether [getItem] and whether
    [setItem] can be used: either may throw, and a storage that can be
    read may still refuse a write, as one that is full or read-only does),
    the stored preference, the [dark] class and the [data-theme-applied]
    attribute of the root element, and the errors written to the
    console. *)
Record Page :=
  { getItemWorks : bool;
    setItemWorks : bool;
    saved : option string;
    darkClass : bool;
    themeApplied : bool;
    consoleErrors : nat }.

(** [localStorage.getItem('sma_theme')]. *)
Definition getItem (p : Page) : Completion (option string) :=
  if getItemWorks p then Normal (saved p) else Throw.

(** [localStorage.setItem('sma_theme', v)]. *)
Definition setItem (v : string) (p : Page) : Completion Page :=
  if setItemWorks p then
    Normal {| getItemWorks := getItemWorks p; setItemWorks := setItemWorks p;
              saved := Some v; darkClass := darkClass p;
              themeApplied := themeApplied p;
              consoleErrors := consoleErrors p |}
  else Throw.

(** [document.documentElement.classList.add('dark')]. *)
Definition addDarkClass (p : Page) : Page :=
  {| getItemWorks := getItemWorks p; setItemWorks := setItemWorks p;
     saved := saved p; darkClass := true; themeApplied := themeApplied p;
     consoleErrors := consoleErrors p |}.

(** [document.documentElement.setAttribute('data-theme-applied', 'true')]. *)
Definition markApplied (p : Page) : Page :=
  {| getItemWorks := getItemWorks p; setItemWorks := setItemWorks p;
     saved := saved p; darkClass := darkClass p; themeApplied := true;
     consoleErrors := consoleErrors p |}.

(** The [catch] block: [console.error('Theme script error:', e)]. *)
Definition logError (p : Page) : Page :=
  {| getItemWorks := getItemWorks p; setItemWorks := setItemWorks p;
     saved := saved p; darkClass := darkClass p;
     themeApplied := themeApplied p;
     consoleErrors := S (consoleErrors p) |}.

(** The script, statement by statement: what ran before a throw stays
    done. *)
Definition script (p : Page) : Page :=
  match getItem p with
  | Throw => logError p
  | Normal savedTheme =>
      let theme :=
        if bool_decide (savedTheme = Some "dark") then "dark" else "light" in
      let p1 := if String.eqb theme "dark" then addDarkClass p else p in
      match setItem theme p1 with
      | Throw => logError p1
      | Normal p2 => markApplied p2
      end
  end.

(** Three pages: [dark] stored in a storage that refuses writes; a value
    that is no theme stored in a working storage; [dark] stored in a
    storage that cannot be read. *)
Definition darkStoredReadOnly : Page :=
  {| getItemWorks := true; setItemWorks := false; saved := Some "dark";
     darkClass := false; themeApplied := false; consoleErrors := 0 |}.

Definition unknownStored : Page :=
  {| getItemWorks := true; setItemWorks := true; saved := Some "solarized";
     darkClass := false; themeApplied := false; consoleErrors := 0 |}.

Definition darkStoredUnreadable : Page :=
  {| getItemWorks := false; setItemWorks := true; saved := Some "dark";
     darkClass := false; themeApplied := false; consoleErrors := 0 |}.

End Theme.

(* ===================================================================== *)
(** ** Further vocabulary *)

Module Samples.
Import Js.

(** Every stored role, in the table and in the claims, is one of the four
    the update endpoint accepts. *)
Definition RolesValid (s : Backend.State) : Prop :=
  (forall id row,
      Backend.users s !! id = Some row ->
      In (Backend.role row) UpdateRoleApi.validRoles)
  /\ (forall id r,
        Backend.publicMetadataRole s !! id = Some r ->
        In r UpdateRoleApi.validRoles).

(** The commands by which the protector speaks to the rest of the page:
    the loading flag and the router. *)
Definition isSignal (c : Protector.Cmd) : bool :=
  match c with
  | Protector.SetAuthLoading _ | Protector.RouterPush _ => true
  | _ => false
  end.

(** The application state after a visit of path [p] with Clerk loaded and
    nobody signed in: the first commit and the re-render it causes. *)
Definition signedOutOn (p : string) : Protector.World :=
  Protector.commit (Spec.signedOut p)
    (Protector.commit (Spec.signedOut p) Protector.mount).

(** A signed-in user with no readable role, on path [p]. *)
Definition noRole (p uid : string) : Protector.Hooks :=
  {| Protector.pathname := Some p;
     Protector.isLoaded := true;
     Protector.userId := Some uid;
     Protector.user := None |}.

(** A verifier that accepts one signature and reads one event out of it. *)
Definition onlySignature (good : string) (evt : Webhook.Event)
  : Webhook.Verifier :=
  fun _ _ _ signature =>
    if String.eqb signature good then Normal evt else Throw.

Definition signed (signature : string) : Webhook.Request :=
  {| Webhook.svix_id := Some "msg_1";
     Webhook.svix_timestamp := Some "1700000000";
     Webhook.svix_signature := Some signature;
     Webhook.body := "{}" |}.

Definition userEvent (type id : string) (email : option string)
  : Webhook.Event :=
  {| Webhook.type := type;
     Webhook.data :=
       {| Webhook.id := id;
          Webhook.email_addresses :=
            Some [ {| Webhook.email_address := email |} ] |} |}.

(** The event a request carries, when all three Svix headers are present
    and non-empty and the verifier accepts the signature. *)
Definition accepted (verify : Webhook.Verifier) (req : Webhook.Request)
  : option Webhook.Event :=
  match Webhook.svix_id req, Webhook.svix_timestamp req,
        Webhook.svix_signature req with
  | Some i, Some t, Some g =>
      if truthy (Some i) && truthy (Some t) && truthy (Some g)
      then match verify (Webhook.body req) i t g with
           | Normal evt => Some evt
           | Throw => None
           end
      else None
  | _, _, _ => None
  end.

(** The next call to Clerk goes through. *)
Definition clerkUp (s : Backend.State) : bool :=
  match Backend.clerkOutcomes s with
  | [] => true
  | o :: _ => o
  end.

(** A stand-in for [JSON] at type [DemoAuth]: one character for the flag,
    one for the presence of a role, then the role. *)
Definition encodeAuth (a : DemoAuth.DemoAuth) : string :=
  (if DemoAuth.authenticated a then "t" else "f")
    +:+ match DemoAuth.role a with
        | Some r => "r" +:+ r
        | None => "n"
        end.

Definition decodeAuth (raw : string) : Completion DemoAuth.DemoAuth :=
  match raw with
  | String f (String k rest) =>
      let flag := Ascii.eqb f "t" in
      if Ascii.eqb k "r"
      then Normal {| DemoAuth.role := Some rest;
                     DemoAuth.authenticated := flag |}
      else if Ascii.eqb k "n"
      then Normal {| DemoAuth.role := None; DemoAuth.authenticated := flag |}
      else Throw
  | _ => Throw
  end.

Definition sampleJson : DemoAuth.Json :=
  {| DemoAuth.stringify := encodeAuth; DemoAuth.parse := decodeAuth |}.

Definition freshBrowser : DemoAuth.Browser :=
  {| DemoAuth.hasWindow := true;
     DemoAuth.storageWorks := true;
     DemoAuth.items := ∅;
     DemoAuth.dispatched := [] |}.

End Samples.

(* ===================================================================== *)
(** * Properties *)

(** ** Strings and route tables *)

Module RouteFacts.
Import Js RoutePolicy.

Lemma prefix_empty (s : string) : String.prefix EmptyString s = true.
Proof. destruct s; reflexivity. Qed.

Lemma prefix_cons_inv (a : ascii) (s1 s2 : string) :
  String.prefix (String a s1) s2 = true ->
  exists s2', s2 = String a s2' /\ String.prefix s1 s2' = true.
Proof.
  destruct s2 as [|b s2']; simpl; [discriminate|].
  destruct (ascii_dec a b) as [->|]; [|discriminate].
  intros H. exists s2'. split; [reflexivity | exact H].
Qed.

Lemma prefix_same (s : string) : String.prefix s s = true.
Proof.
  induction s as [|a s IH]; [reflexivity|].
  simpl. destruct (ascii_dec a a); [exact IH | congruence].
Qed.

Lemma prefix_append_l (a b s : string) :
  String.prefix (a +:+ b) s = true -> String.prefix a s = true.
Proof.
  revert s. induction a as [|c a IH]; intros s H.
  - apply prefix_empty.
  - simpl in H. apply prefix_cons_inv in H as (s' & -> & H).
    simpl. destruct (ascii_dec c c); [auto | congruence].
Qed.

(** A segment match is in particular a string-prefix match. *)
Lemma segmentMatch_startsWith (route pathname : string) :
  segmentMatch route pathname = true -> startsWith pathname route = true.
Proof.
  unfold segmentMatch, startsWith. intros H.
  apply orb_true_iff in H as [H|H].
  - exact (prefix_append_l _ _ _ H).
  - apply String.eqb_eq in H as ->. apply prefix_same.
Qed.

(** The first two characters of a path that matches a route. *)
Lemma segmentMatch_head (a b : ascii) (r pathname : string) :
  segmentMatch (String a (String b r)) pathname = true ->
  exists rest, pathname = String a (String b rest).
Proof.
  intros H. apply segmentMatch_startsWith in H. unfold startsWith in H.
  apply prefix_cons_inv in H as (s1 & -> & H).
  apply prefix_cons_inv in H as (s2 & -> & _).
  eauto.
Qed.

(** The loop returns the first route, in list order, that matches. *)
Lemma firstDashboardMatch_Some (routes : list string) (pathname r : string) :
  firstDashboardMatch routes pathname = Some r <->
  exists pre post,
    routes = pre ++ r :: post
    /\ segmentMatch r pathname = true
    /\ Forall (fun r' => segmentMatch r' pathname = false) pre.
Proof.
  induction routes as [|r0 routes IH]; simpl.
  - split; [discriminate|]. intros (pre & post & E & _).
    destruct pre; discriminate.
  - fold (segmentMatch r0 pathname).
    destruct (segmentMatch r0 pathname) eqn:M.
    + split.
      * intros [= <-]. exists [], routes. auto.
      * intros (pre & post & E & Mr & Hpre).
        destruct pre as [|x pre]; simpl in E.
        -- congruence.
        -- injection E as <- _. inversion Hpre; congruence.
    + rewrite IH. split.
      * intros (pre & post & -> & Mr & Hpre).
        exists (r0 :: pre), post. auto.
      * intros (pre & post & E & Mr & Hpre).
        destruct pre as [|x pre]; simpl in E.
        -- injection E as <- _. congruence.
        -- injection E as <- ->. inversion Hpre; subst. eauto.
Qed.

Lemma firstDashboardMatch_None (routes : list string) (pathname : string) :
  firstDashboardMatch routes pathname = None <->
  Forall (fun r => segmentMatch r pathname = false) routes.
Proof.
  induction routes as [|r0 routes IH]; simpl.
  - split; auto.
  - fold (segmentMatch r0 pathname).
    destruct (segmentMatch r0 pathname) eqn:M.
    + split; [discriminate|]. inversion 1; congruence.
    + rewrite IH. split; [auto|]. inversion 1; auto.
Qed.

(** No path matches two dashboard routes: their second characters
    differ. *)
Lemma dashboard_match_unique (r r' pathname : string) :
  In r (keys DASHBOARD_ROUTES) -> In r' (keys DASHBOARD_ROUTES) ->
  segmentMatch r pathname = true -> segmentMatch r' pathname = true ->
  r = r'.
Proof.
  simpl. intros Hr Hr' M M'.
  repeat destruct Hr as [<-|Hr]; try contradiction;
    repeat destruct Hr' as [<-|Hr']; try contradiction;
    try reflexivity;
    apply segmentMatch_head in M as (rest & ->);
    apply segmentMatch_head in M' as (rest' & [=]).
Qed.

Lemma getDashboardRoute_key (pathname r : string) :
  getDashboardRoute pathname = Some r ->
  In r (keys DASHBOARD_ROUTES) /\ segmentMatch r pathname = true.
Proof.
  unfold getDashboardRoute. rewrite firstDashboardMatch_Some.
  intros (pre & post & E & M & _). split; [|exact M].
  rewrite E. apply in_or_app. right. left. reflexivity.
Qed.

(** [DASHBOARD_ROUTES[route]] is defined for every route the loop can
    return. *)
Lemma get_dashboard_key (r : string) :
  In r (keys DASHBOARD_ROUTES) ->
  get DASHBOARD_ROUTES r = Some [String.substring 1 (String.length r) r].
Proof.
  simpl. intros H.
  repeat destruct H as [<-|H]; try contradiction; reflexivity.
Qed.

Lemma existsb_false_Forall {A} (f : A -> bool) (xs : list A) :
  existsb f xs = false <-> Forall (fun x => f x = false) xs.
Proof.
  induction xs as [|x xs IH]; simpl.
  - split; auto.
  - rewrite orb_false_iff, IH. split.
    + intros [? ?]. constructor; auto.
    + inversion 1; auto.
Qed.

Lemma dashboard_is_protected (pathname r : string) :
  getDashboardRoute pathname = Some r -> isProtectedRoute pathname = true.
Proof.
  intros H. apply getDashboardRoute_key in H as [Hin M].
  apply segmentMatch_startsWith in M.
  unfold isProtectedRoute, some. apply existsb_exists.
  exists r. split; [|exact M].
  unfold PROTECTED_ROUTES. apply in_or_app. left. exact Hin.
Qed.

Lemma protected_nonempty (pathname : string) :
  isProtectedRoute pathname = true -> pathname <> EmptyString.
Proof. intros H ->. discriminate H. Qed.

End RouteFacts.

(** ** Route policy lookup *)

Module LookupFacts.
Import Js RoutePolicy RouteFacts Spec.

(** C8, as stated, fails: [/administrator] starts with the prefix of the
    [/admin] entry and yet the lookup returns null; and [/list] gets a
    null lookup although it is not public. *)
Lemma lookup_not_longest_prefix :
  ~ LongestPrefixLookup (keys DASHBOARD_ROUTES) getDashboardRoute
  /\ ~ NullMeansPublic getDashboardRoute.
Proof.
  split.
  - intros H. specialize (H "/administrator"). simpl in H.
    specialize (H "/admin" (or_introl eq_refl)). discriminate H.
  - intros H. specialize (H "/list" eq_refl). discriminate H.
Qed.

(** C8, amended: [getDashboardRoute] returns the first key of
    [DASHBOARD_ROUTES], in declaration order, that equals the path or is
    followed by a slash in it; no other key matches the path in that way,
    so the result is also the longest matching key; the result is null
    exactly when no key matches in that way; a public path (no entry of
    [PROTECTED_ROUTES] is a string prefix of it) always gets null. *)
Theorem lookup_first_segment_match (path : string) :
  (forall r,
      getDashboardRoute path = Some r <->
      exists pre post,
        keys DASHBOARD_ROUTES = pre ++ r :: post
        /\ segmentMatch r path = true
        /\ Forall (fun r' => segmentMatch r' path = false) pre)
  /\ (forall r r',
        getDashboardRoute path = Some r ->
        In r' (keys DASHBOARD_ROUTES) -> segmentMatch r' path = true ->
        r' = r /\ String.length r' <= String.length r)
  /\ (getDashboardRoute path = None <->
      Forall (fun r => segmentMatch r path = false) (keys DASHBOARD_ROUTES))
  /\ (isProtectedRoute path = false <->
      Forall (fun r => startsWith path r = false) PROTECTED_ROUTES)
  /\ (isProtectedRoute path = false -> getDashboardRoute path = None).
Proof.
  split; [|split; [|split; [|split]]].
  - intros r. apply firstDashboardMatch_Some.
  - intros r r' H Hin M.
    apply getDashboardRoute_key in H as [Hr Mr].
    assert (r' = r) as -> by eauto using dashboard_match_unique.
    split; [reflexivity | lia].
  - apply firstDashboardMatch_None.
  - unfold isProtectedRoute, some. apply existsb_false_Forall.
  - intros Hpub.
    destruct (getDashboardRoute path) as [r|] eqn:E; [|reflexivity].
    apply dashboard_is_protected in E. congruence.
Qed.

Lemma lookup_first_segment_match_witness :
  getDashboardRoute "/admin/users" = Some "/admin"
  /\ getDashboardRoute "/sign-in" = None.
Proof.
  pose proof (lookup_first_segment_match "/admin/users") as (H1 & _).
  pose proof (lookup_first_segment_match "/sign-in") as (_ & _ & _ & _ & H5).
  split.
  - apply H1. exists [], ["/teacher"; "/student"; "/parent"].
    repeat split; constructor.
  - apply H5. reflexivity.
Defined.

End LookupFacts.

(** ** The commit discipline *)

Module ProtectorFacts.
Import Js RoutePolicy Protector RouteFacts Spec Samples.

Lemma run_spec (cmds : list Cmd) (w : World) :
  run w cmds =
  {| isAuthLoading := fold_left flagStep cmds (isAuthLoading w);
     local := fold_left localStep cmds (local w);
     trace := trace w ++ cmds;
     rendered := rendered w;
     decision := decision w |}.
Proof.
  unfold run. revert w. induction cmds as [|c cmds IH]; intros w; simpl.
  - rewrite app_nil_r. destruct w; reflexivity.
  - rewrite IH. simpl. rewrite <- app_assoc. reflexivity.
Qed.

Lemma changed_same {A} `{EqDecision A} (a : A) : changed (Some a) a = false.
Proof. simpl. rewrite bool_decide_eq_true_2; reflexivity. Qed.

Lemma changed_deps2 (h : Hooks) (st st' : LocalState) :
  changed (Some (deps2 h st)) (deps2 h st') = negb (bool_decide (st = st')).
Proof.
  simpl. f_equal. apply bool_decide_ext. unfold deps2.
  destruct st, st'; simpl. split; [intros [= -> ->] | intros [= -> ->]];
    reflexivity.
Qed.

(** EFFECT 0 and EFFECT 2 leave the component's cells alone; EFFECT 1
    leaves the loading flag alone. *)
Lemma effect0_local (h : Hooks) (st : LocalState) :
  fold_left localStep (effect0 h) st = st.
Proof. unfold effect0. destruct (onProtectedRoute h); reflexivity. Qed.

Lemma effect2_local (h : Hooks) (st0 st : LocalState) :
  fold_left localStep (effect2 h st0) st = st.
Proof.
  unfold effect2.
  repeat match goal with
         | |- context [if ?b then _ else _] => destruct b
         | |- context [match ?x with _ => _ end] => destruct x
         end; reflexivity.
Qed.

Lemma effect1_flag (h : Hooks) (b : bool) :
  fold_left flagStep (effect1 h) b = b.
Proof.
  unfold effect1, getUserRoleFromClaims.
  destruct (negb (isLoaded h)); [reflexivity|].
  destruct (negb (truthy (userId h)) || negb (bool_decide (is_Some (user h))));
    [reflexivity|].
  destruct (readRole (user h)); reflexivity.
Qed.

Lemma effect1_local (h : Hooks) (st : LocalState) :
  isLoaded h = true ->
  fold_left localStep (effect1 h) st =
  {| userRole := resolvedRole h; isRoleLoaded := true |}.
Proof.
  intros L. unfold effect1, resolvedRole, getUserRoleFromClaims. rewrite L.
  simpl negb at 1. cbv iota.
  destruct (negb (truthy (userId h)) || negb (bool_decide (is_Some (user h))));
    [reflexivity|].
  destruct (readRole (user h)); reflexivity.
Qed.

Lemma effect1_not_loaded (h : Hooks) : isLoaded h = false -> effect1 h = [].
Proof. intros L. unfold effect1. rewrite L. reflexivity. Qed.

Lemma effect2_not_loaded (h : Hooks) (st : LocalState) :
  isLoaded h = false -> effect2 h st = [].
Proof. intros L. unfold effect2. rewrite L. reflexivity. Qed.

(** One commit, field by field. *)
Lemma commit_spec (h : Hooks) (w : World) :
  commit h w =
  {| isAuthLoading := fold_left flagStep (commitCmds h w) (isAuthLoading w);
     local := fold_left localStep (commitCmds h w) (local w);
     trace := trace w ++ commitCmds h w;
     rendered := Some (h, local w);
     decision := if runs2 w h then decisionOf (effect2 h (local w))
                 else decision w |}.
Proof. unfold commit. rewrite run_spec. reflexivity. Qed.

(** A commit with unchanged dependencies does nothing. *)
Lemma commit_idle (h : Hooks) (w : World) :
  rendered w = Some (h, local w) -> commitCmds h w = [].
Proof.
  intros R. unfold commitCmds, runs0, runs1, runs2. rewrite R. simpl.
  rewrite !bool_decide_eq_true_2 by reflexivity. reflexivity.
Qed.

(** The re-render after a state change runs EFFECT 2 only. *)
Lemma commit_again (h : Hooks) (st0 : LocalState) (w : World) :
  rendered w = Some (h, st0) -> local w <> st0 ->
  commitCmds h w = effect2 h (local w) /\ runs2 w h = true.
Proof.
  intros R N. unfold commitCmds, runs0, runs1, runs2. rewrite R.
  cbn [fmap option_fmap option_map fst snd].
  rewrite !changed_same, changed_deps2.
  rewrite bool_decide_eq_false_2 by congruence. auto.
Qed.

(** Settling takes at most two commits, whatever the starting state: the
    second commit can only run EFFECT 2, which leaves the cells alone. *)
Lemma settle_two (n : nat) (h : Hooks) (w : World) :
  settle (S (S n)) h w =
  Some (if bool_decide (local (commit h w) = local w)
        then commit h w
        else commit h (commit h w)).
Proof.
  cbn [settle]. destruct (bool_decide (local (commit h w) = local w)) eqn:E;
    [reflexivity|].
  apply bool_decide_eq_false in E.
  destruct (commit_again h (local w) (commit h w)) as [C _].
  { rewrite commit_spec. reflexivity. }
  { exact E. }
  rewrite bool_decide_eq_true_2; [reflexivity|].
  rewrite (commit_spec h (commit h w)). cbn [local].
  rewrite C. apply effect2_local.
Qed.

Lemma commit_local (h : Hooks) (w : World) :
  local (commit h w) =
  if runs1 w h then fold_left localStep (effect1 h) (local w) else local w.
Proof.
  rewrite commit_spec. cbn [local]. unfold commitCmds.
  rewrite !fold_left_app.
  destruct (runs2 w h); cbn [fold_left]; rewrite ?effect2_local;
    destruct (runs0 w h); cbn [fold_left]; rewrite ?effect0_local;
    destruct (runs1 w h); reflexivity.
Qed.

Lemma commit_flag (h : Hooks) (w : World) :
  isAuthLoading (commit h w) =
  fold_left flagStep (if runs2 w h then effect2 h (local w) else [])
    (fold_left flagStep (if runs0 w h then effect0 h else [])
       (isAuthLoading w)).
Proof.
  rewrite commit_spec. cbn [isAuthLoading]. unfold commitCmds.
  rewrite !fold_left_app. f_equal.
  destruct (runs1 w h); cbn [fold_left]; rewrite ?effect1_flag; reflexivity.
Qed.

Lemma runs1_false (h : Hooks) (w : World) :
  runs1 w h = false ->
  exists h' st', rendered w = Some (h', st') /\ deps1 h' = deps1 h.
Proof.
  unfold runs1. destruct (rendered w) as [[h' st']|]; simpl; [|discriminate].
  intros E. apply negb_false_iff, bool_decide_eq_true in E. eauto.
Qed.

Lemma deps1_loadedState (h h' : Hooks) :
  deps1 h' = deps1 h -> loadedState h' = loadedState h.
Proof.
  unfold deps1, loadedState, resolvedRole. intros [= _ -> ->]. reflexivity.
Qed.

(** In every reachable state, if the last committed render saw Clerk
    loaded, the cells hold what EFFECT 1 computes from that render. *)
Lemma reachable_loaded (w : World) :
  Reachable w ->
  forall h' st',
    rendered w = Some (h', st') -> isLoaded h' = true ->
    local w = loadedState h'.
Proof.
  induction 1 as [|h w R IH]; intros h' st' E L.
  - discriminate E.
  - rewrite commit_spec in E. cbn [rendered] in E. injection E as <- <-.
    rewrite commit_local. destruct (runs1 w h) eqn:R1.
    + apply effect1_local. exact L.
    + apply runs1_false in R1 as (h0 & st0 & E0 & D).
      rewrite <- (deps1_loadedState _ _ D). apply (IH _ _ E0).
      unfold deps1 in D. congruence.
Qed.

Lemma navigates_runs (h : Hooks) (w : World) :
  Navigates w h -> runs0 w h = true /\ runs2 w h = true.
Proof.
  unfold Navigates, runs0, runs2.
  destruct (rendered w) as [[h' st']|]; simpl; [|auto].
  intros N. unfold deps0, deps2.
  rewrite !bool_decide_eq_false_2 by congruence. auto.
Qed.

(** A navigation under a loaded Clerk settles with the cells EFFECT 1
    computes, and the last run of EFFECT 2 is the one that sees them. *)
Lemma settle_navigation (n : nat) (h : Hooks) (w : World) :
  Reachable w -> Navigates w h -> isLoaded h = true ->
  exists w',
    settle (S (S n)) h w = Some w'
    /\ Reachable w'
    /\ local w' = loadedState h
    /\ decision w' = decisionOf (effect2 h (loadedState h))
    /\ trace w' =
        trace w ++ effect0 h
          ++ (if runs1 w h then effect1 h else [])
          ++ (if bool_decide (local w = loadedState h) then []
              else effect2 h (local w))
          ++ effect2 h (loadedState h)
    /\ isAuthLoading w' =
        fold_left flagStep (effect2 h (loadedState h))
          (if bool_decide (local w = loadedState h)
           then fold_left flagStep (effect0 h) (isAuthLoading w)
           else isAuthLoading (commit h w)).
Proof.
  intros R N L. rewrite settle_two.
  destruct (navigates_runs h w N) as [R0 R2].
  assert (L1 : local (commit h w) = loadedState h).
  { rewrite commit_local. destruct (runs1 w h) eqn:R1.
    - apply effect1_local, L.
    - apply runs1_false in R1 as (h0 & st0 & E0 & D).
      rewrite <- (deps1_loadedState _ _ D). apply (reachable_loaded w R _ _ E0).
      unfold deps1 in D. congruence. }
  rewrite L1.
  destruct (bool_decide (loadedState h = local w)) eqn:E.
  - apply bool_decide_eq_true in E.
    exists (commit h w). split; [reflexivity|].
    split; [constructor; exact R|]. split; [exact L1|].
    rewrite bool_decide_eq_true_2 by congruence.
    split; [|split].
    + rewrite commit_spec. cbn [decision]. rewrite R2, E. reflexivity.
    + rewrite commit_spec. cbn [trace]. unfold commitCmds.
      rewrite R0, R2, <- E. reflexivity.
    + rewrite commit_flag, R0, R2, E. reflexivity.
  - apply bool_decide_eq_false in E.
    exists (commit h (commit h w)). split; [reflexivity|].
    split; [do 2 constructor; exact R|].
    destruct (commit_again h (local w) (commit h w)) as [C C2].
    { rewrite commit_spec. reflexivity. }
    { congruence. }
    rewrite bool_decide_eq_false_2 by congruence.
    split; [|split; [|split]].
    + rewrite commit_local.
      destruct (runs1 (commit h w) h); [|exact L1].
      apply effect1_local, L.
    + rewrite (commit_spec h (commit h w)). cbn [decision].
      rewrite C2, L1. reflexivity.
    + rewrite (commit_spec h (commit h w)). cbn [trace].
      rewrite C, L1. rewrite (commit_spec h w). cbn [trace].
      unfold commitCmds. rewrite R0, R2, <- !app_assoc. reflexivity.
    + rewrite (commit_flag h (commit h w)), C2.
      assert (runs0 (commit h w) h = false) as ->.
      { unfold runs0. rewrite commit_spec. cbn [rendered].
        apply changed_same. }
      rewrite L1. reflexivity.
Qed.

(** *** Any render under a loaded Clerk, navigation or not *)

(** EFFECT 2 reads nothing but its dependencies. *)
Lemma effect2_deps (h h' : Hooks) (st st' : LocalState) :
  deps2 h st = deps2 h' st' -> effect2 h st = effect2 h' st'.
Proof.
  unfold deps2. intros [= E1 E2 E3 E4 E5].
  unfold effect2, onProtectedRoute. rewrite E1, E2, E3, E4, E5. reflexivity.
Qed.

Lemma runs2_false (h : Hooks) (w : World) :
  runs2 w h = false ->
  exists h' st',
    rendered w = Some (h', st') /\ deps2 h' st' = deps2 h (local w).
Proof.
  unfold runs2. destruct (rendered w) as [[h' st']|]; simpl; [|discriminate].
  intros E. apply negb_false_iff, bool_decide_eq_true in E. eauto.
Qed.

(** EFFECT 0 never runs without EFFECT 2: the pathname is a dependency of
    both. *)
Lemma runs2_false_runs0 (h : Hooks) (w : World) :
  runs2 w h = false -> runs0 w h = false.
Proof.
  intros R. apply runs2_false in R as (h' & st' & E & D).
  unfold runs0. rewrite E. cbn. unfold deps0. unfold deps2 in D.
  injection D as D _ _ _ _. rewrite D.
  rewrite bool_decide_eq_true_2; reflexivity.
Qed.

Lemma effect1_quiet (h : Hooks) : existsb isSignal (effect1 h) = false.
Proof.
  unfold effect1, getUserRoleFromClaims.
  destruct (negb (isLoaded h)); [reflexivity|].
  destruct (negb (truthy (userId h)) || negb (bool_decide (is_Some (user h))));
    [reflexivity|].
  destruct (readRole (user h)); reflexivity.
Qed.

(** A run of EFFECT 2 that decides, either way, leaves the flag false. *)
Lemma effect2_decided_flag (h : Hooks) (st : LocalState) (b : bool) :
  decisionOf (effect2 h st) <> PENDING ->
  fold_left flagStep (effect2 h st) b = false.
Proof.
  unfold effect2.
  repeat match goal with
         | |- context [if ?c then _ else _] => destruct c
         | |- context [match ?x with _ => _ end] => destruct x
         end; intros D; try reflexivity; exfalso; apply D; reflexivity.
Qed.

(** In every reachable state the decision is the one EFFECT 2 takes on
    the values of the last committed render; what that run did is in the
    trace, and nothing after it touched the flag or the router; and a
    decision other than PENDING goes with a lowered flag. *)
Lemma reachable_last_word (w : World) :
  Reachable w ->
  forall h' st',
    rendered w = Some (h', st') ->
    (exists pre post,
        trace w = pre ++ effect2 h' st' ++ post
        /\ existsb isSignal post = false)
    /\ decision w = decisionOf (effect2 h' st')
    /\ (decision w <> PENDING -> isAuthLoading w = false).
Proof.
  induction 1 as [|h w R IH]; intros h' st' E.
  - discriminate E.
  - rewrite commit_spec in E. cbn [rendered] in E. injection E as <- <-.
    destruct (runs2 w h) eqn:R2.
    + split; [|split].
      * exists (trace w ++ (if runs0 w h then effect0 h else [])
                  ++ (if runs1 w h then effect1 h else [])), [].
        split; [|reflexivity].
        rewrite commit_spec. cbn [trace]. unfold commitCmds. rewrite R2.
        rewrite app_nil_r, <- !app_assoc. reflexivity.
      * rewrite commit_spec. cbn [decision]. rewrite R2. reflexivity.
      * rewrite commit_spec at 1. cbn [decision]. rewrite R2. intros D.
        rewrite commit_flag, R2. apply effect2_decided_flag, D.
    + pose proof (runs2_false_runs0 h w R2) as R0.
      destruct (runs2_false h w R2) as (h0 & st0 & E0 & D0).
      destruct (IH h0 st0 E0) as ((pre & post & T & Q) & Dw & Fw).
      rewrite (effect2_deps _ _ _ _ D0) in T, Dw.
      assert (Dc : decision (commit h w) = decision w)
        by (rewrite commit_spec; cbn [decision]; rewrite R2; reflexivity).
      split; [|split].
      * exists pre, (post ++ (if runs1 w h then effect1 h else [])).
        split.
        -- rewrite commit_spec. cbn [trace]. unfold commitCmds.
           rewrite R0, R2, T, app_nil_r. cbn [app].
           rewrite <- !app_assoc. reflexivity.
        -- rewrite existsb_app, Q.
           destruct (runs1 w h); [apply effect1_quiet | reflexivity].
      * rewrite Dc. exact Dw.
      * rewrite Dc. intros D. rewrite commit_flag, R0, R2. cbn [fold_left].
        apply Fw, D.
Qed.

(** Rendering under a loaded Clerk settles from every reachable state,
    navigation or not, in at most two commits: the cells hold what
    EFFECT 1 computes, the decision is the one EFFECT 2 takes on them, that
    run is the protector's last word in the trace, and a decision other
    than PENDING goes with a lowered flag. *)
Lemma settle_any (n : nat) (h : Hooks) (w : World) :
  Reachable w -> isLoaded h = true ->
  exists w',
    settle (S (S n)) h w = Some w'
    /\ Reachable w'
    /\ local w' = loadedState h
    /\ decision w' = decisionOf (effect2 h (loadedState h))
    /\ (decision w' <> PENDING -> isAuthLoading w' = false)
    /\ (exists pre post,
          trace w' = pre ++ effect2 h (loadedState h) ++ post
          /\ existsb isSignal post = false)
    /\ trace w' =
        trace w ++ commitCmds h w
          ++ (if bool_decide (local w = loadedState h) then []
              else effect2 h (loadedState h)).
Proof.
  intros R L. rewrite settle_two.
  assert (L1 : local (commit h w) = loadedState h).
  { rewrite commit_local. destruct (runs1 w h) eqn:R1.
    - apply effect1_local, L.
    - apply runs1_false in R1 as (h0 & st0 & E0 & D).
      rewrite <- (deps1_loadedState _ _ D).
      apply (reachable_loaded w R _ _ E0).
      unfold deps1 in D. congruence. }
  assert (Fin : forall w',
             Reachable w' -> rendered w' = Some (h, loadedState h) ->
             local w' = loadedState h ->
             trace w' =
               trace w ++ commitCmds h w
                 ++ (if bool_decide (local w = loadedState h) then []
                     else effect2 h (loadedState h)) ->
             Reachable w'
             /\ local w' = loadedState h
             /\ decision w' = decisionOf (effect2 h (loadedState h))
             /\ (decision w' <> PENDING -> isAuthLoading w' = false)
             /\ (exists pre post,
                   trace w' = pre ++ effect2 h (loadedState h) ++ post
                   /\ existsb isSignal post = false)
             /\ trace w' =
                 trace w ++ commitCmds h w
                   ++ (if bool_decide (local w = loadedState h) then []
                       else effect2 h (loadedState h))).
  { intros w' Rw' Ew' Lw' Tw'.
    destruct (reachable_last_word w' Rw' _ _ Ew') as (W & D & F).
    auto 10. }
  rewrite L1.
  destruct (bool_decide (loadedState h = local w)) eqn:E.
  - apply bool_decide_eq_true in E.
    exists (commit h w). split; [reflexivity|].
    apply Fin; [constructor; exact R | | exact L1 |].
    + rewrite commit_spec. cbn [rendered]. congruence.
    + rewrite bool_decide_eq_true_2 by congruence.
      rewrite commit_spec. cbn [trace]. rewrite app_nil_r. reflexivity.
  - apply bool_decide_eq_false in E.
    exists (commit h (commit h w)). split; [reflexivity|].
    destruct (commit_again h (local w) (commit h w)) as [C C2].
    { rewrite commit_spec. reflexivity. }
    { congruence. }
    apply Fin; [do 2 constructor; exact R | | |].
    + rewrite (commit_spec h (commit h w)). cbn [rendered]. congruence.
    + rewrite (commit_spec h (commit h w)). cbn [local].
      rewrite C, effect2_local. exact L1.
    + rewrite bool_decide_eq_false_2 by congruence.
      rewrite (commit_spec h (commit h w)). cbn [trace].
      rewrite C, L1. rewrite (commit_spec h w). cbn [trace].
      rewrite <- app_assoc. reflexivity.
Qed.

(** The decision after a commit is the one EFFECT 2 takes on the values
    that commit rendered, whether it ran in that commit or not. *)
Lemma commit_decision (h : Hooks) (w : World) :
  Reachable w -> decision (commit h w) = decisionOf (effect2 h (local w)).
Proof.
  intros R.
  destruct (reachable_last_word (commit h w) (reach_commit h w R) h (local w))
    as (_ & D & _); [|exact D].
  rewrite commit_spec. reflexivity.
Qed.

Lemma effect0_no_push (h : Hooks) : existsb isPush (effect0 h) = false.
Proof. unfold effect0. destruct (onProtectedRoute h); reflexivity. Qed.

Lemma effect1_no_push (h : Hooks) : existsb isPush (effect1 h) = false.
Proof.
  unfold effect1, getUserRoleFromClaims.
  destruct (negb (isLoaded h)); [reflexivity|].
  destruct (negb (truthy (userId h)) || negb (bool_decide (is_Some (user h))));
    [reflexivity|].
  destruct (readRole (user h)); reflexivity.
Qed.

(** On a protected path EFFECT 2 does nothing while no role is loaded. *)
Lemma effect2_role_pending (h : Hooks) (st : LocalState) :
  onProtectedRoute h = true -> isRoleLoaded st = false -> effect2 h st = [].
Proof.
  intros P RL. unfold effect2. rewrite P, RL.
  destruct (negb (isLoaded h)); reflexivity.
Qed.

(** What a session adds to the trace ends with the decisive run of
    EFFECT 2 whenever that effect runs in the session at all. *)
Lemma session_ends_with_check (h : Hooks) (w : World) :
  runs2 w h = true \/ local w <> loadedState h ->
  exists before,
    commitCmds h w
      ++ (if bool_decide (local w = loadedState h) then []
          else effect2 h (loadedState h))
    = before ++ effect2 h (loadedState h).
Proof.
  intros X. destruct (decide (local w = loadedState h)) as [E|N].
  - destruct X as [R2|X]; [|contradiction].
    rewrite bool_decide_eq_true_2 by exact E. rewrite app_nil_r.
    exists ((if runs0 w h then effect0 h else [])
              ++ (if runs1 w h then effect1 h else [])).
    unfold commitCmds. rewrite R2, E, <- app_assoc. reflexivity.
  - rewrite bool_decide_eq_false_2 by exact N.
    exists (commitCmds h w). reflexivity.
Qed.

End ProtectorFacts.

(** ** Decisions of the route protector *)

Module DecisionFacts.
Import Js RoutePolicy Protector RouteFacts Spec Samples ProtectorFacts.

Lemma onProtectedRoute_path (h : Hooks) (p : string) :
  pathname h = Some p -> isProtectedRoute p = true ->
  onProtectedRoute h = true.
Proof.
  intros E P. unfold onProtectedRoute. rewrite E, P.
  destruct (String.eqb_spec p EmptyString); [|reflexivity].
  subst. discriminate P.
Qed.

Lemma truthy_nonempty (s : string) : s <> EmptyString -> truthy (Some s) = true.
Proof.
  intros N. simpl.
  destruct (String.eqb_spec s EmptyString); [contradiction|reflexivity].
Qed.

(** EFFECT 2 once the role is loaded: nobody signed in. *)
Lemma effect2_anonymous (h : Hooks) (p : string) (st : LocalState) :
  pathname h = Some p -> isProtectedRoute p = true ->
  isLoaded h = true -> isRoleLoaded st = true ->
  truthy (userId h) = false ->
  effect2 h st = [SetAuthLoading false; RouterPush "/sign-in"].
Proof.
  intros E P L RL U. unfold effect2.
  rewrite (onProtectedRoute_path h p E P), L, RL, U. reflexivity.
Qed.

(** EFFECT 2 once the role is loaded: somebody signed in, on a
    dashboard. *)
Lemma effect2_dashboard (h : Hooks) (p d : string) (st : LocalState) :
  pathname h = Some p -> getDashboardRoute p = Some d ->
  isLoaded h = true -> isRoleLoaded st = true ->
  truthy (userId h) = true ->
  exists allowedRoles,
    get DASHBOARD_ROUTES d = Some allowedRoles
    /\ effect2 h st =
        if negb (truthy (userRole st))
           || negb (includes allowedRoles (default EmptyString (userRole st)))
        then [ConsoleWarn (userId h) (userRole st) d;
              SetAuthLoading false; RouterPush "/sign-in"]
        else [SetAuthLoading false].
Proof.
  intros E D L RL U.
  pose proof (dashboard_is_protected p d D) as P.
  pose proof (getDashboardRoute_key p d D) as [K _].
  pose proof (get_dashboard_key d K) as G.
  eexists. split; [exact G|].
  unfold effect2.
  rewrite (onProtectedRoute_path h p E P), L, RL, U, E. simpl default.
  rewrite D, G. reflexivity.
Qed.

(** The lookup [DASHBOARD_ROUTES[dashboardRoute]] in EFFECT 2 never comes
    back undefined. *)
Lemma effect2_no_TypeError (h : Hooks) (st : LocalState) :
  ~ In TypeError (effect2 h st).
Proof.
  unfold effect2.
  destruct (negb (isLoaded h)); [intros []|].
  destruct (onProtectedRoute h && negb (isRoleLoaded st)); [intros []|].
  destruct (negb (onProtectedRoute h)); [intros [|[]]; discriminate|].
  destruct (negb (truthy (userId h))); [intros [|[|[]]]; discriminate|].
  destruct (getDashboardRoute (default EmptyString (pathname h)))
    as [d|] eqn:D; [|intros [|[]]; discriminate].
  apply getDashboardRoute_key in D as [K _].
  rewrite (get_dashboard_key d K).
  destruct (negb (truthy (userRole st)) || _);
    [intros [|[|[|[]]]]; discriminate | intros [|[]]; discriminate].
Qed.

(** C3: on any protected path, whenever Clerk is loaded and nobody is
    signed in, the check terminates in DENY with the loading flag false,
    whatever state the application is in when the render comes (a fresh
    mount, Clerk loading late on the same path, a sign-out in place, a
    navigation): the loader is lowered and the router sent to the sign-in
    page, and nothing after that touches the flag or the router; no state
    of the session allows; and whenever the check runs in the session, the
    redirect is the last thing the session does. *)
Theorem anonymous_is_denied (n : nat) (p : string) (h : Hooks) (w : World) :
  Reachable w ->
  pathname h = Some p -> isProtectedRoute p = true ->
  isLoaded h = true -> truthy (userId h) = false ->
  exists w' pre post added,
    settle (S (S n)) h w = Some w'
    /\ decision w' = DENY
    /\ isAuthLoading w' = false
    /\ trace w' = pre ++ [SetAuthLoading false; RouterPush "/sign-in"] ++ post
    /\ existsb isSignal post = false
    /\ decision (commit h w) <> ALLOW
    /\ trace w' = trace w ++ added
    /\ (runs2 w h = true \/ local w <> loadedState h ->
        exists before,
          added = before ++ [SetAuthLoading false; RouterPush "/sign-in"]).
Proof.
  intros R E P L U.
  destruct (settle_any n h w R L)
    as (w' & S & _ & _ & D & F & (pre & post & T & Q) & Tw).
  pose proof (session_ends_with_check h w) as X.
  rewrite (effect2_anonymous h p (loadedState h) E P L eq_refl U)
    in D, T, Tw, X.
  exists w', pre, post.
  exists (commitCmds h w
            ++ (if bool_decide (local w = loadedState h) then []
                else [SetAuthLoading false; RouterPush "/sign-in"])).
  split; [exact S|]. split; [exact D|].
  split; [apply F; rewrite D; discriminate|].
  split; [exact T|]. split; [exact Q|].
  split; [|split; [exact Tw | exact X]].
  rewrite (commit_decision h w R). unfold effect2.
  rewrite (onProtectedRoute_path h p E P), L, U.
  destruct (isRoleLoaded (local w)); discriminate.
Qed.

Lemma anonymous_is_denied_witness :
  exists w' pre post added,
    settle 2 (signedOut "/admin/users") (commit (loading "/admin/users") mount)
    = Some w'
    /\ decision w' = DENY
    /\ isAuthLoading w' = false
    /\ trace w' = pre ++ [SetAuthLoading false; RouterPush "/sign-in"] ++ post
    /\ existsb isSignal post = false
    /\ decision (commit (signedOut "/admin/users")
                   (commit (loading "/admin/users") mount)) <> ALLOW
    /\ trace w' = trace (commit (loading "/admin/users") mount) ++ added
    /\ (runs2 (commit (loading "/admin/users") mount)
          (signedOut "/admin/users") = true
        \/ local (commit (loading "/admin/users") mount)
           <> loadedState (signedOut "/admin/users") ->
        exists before,
          added = before ++ [SetAuthLoading false; RouterPush "/sign-in"]).
Proof.
  apply (anonymous_is_denied 0 "/admin/users" (signedOut "/admin/users")
           (commit (loading "/admin/users") mount));
    [repeat constructor | reflexivity | reflexivity | reflexivity
    | reflexivity].
Defined.

Lemma signedIn_resolved (p uid r : string) :
  uid <> EmptyString -> In r ROLES ->
  loadedState (signedIn p uid r) =
  {| userRole := Some r; isRoleLoaded := true |}.
Proof.
  intros U Hr. unfold loadedState, resolvedRole. cbn [userId user signedIn].
  rewrite (truthy_nonempty uid U). simpl in Hr.
  repeat destruct Hr as [<-|Hr]; try contradiction; reflexivity.
Qed.

(** X25: the matrix that does hold. For each of the four roles and each
    of the four dashboard paths, from every reachable state, rendering
    under a signed-in user whose claims carry the role settles; the last
    run of EFFECT 2 in the session allows exactly when the role is in the
    path's allowed set, that is when the path is the role's own dashboard,
    and otherwise denies, its warning, lowered loader and redirect being
    the protector's last word. The flag ends false. Where the cells hold
    no loaded role, or hold this very role, when the render comes, an
    entitled user is let in without any redirect in the session. *)
Theorem settled_dashboard_matrix (n : nat) (w : World) (uid r p : string) :
  Reachable w -> uid <> EmptyString ->
  In r ROLES -> In p (keys DASHBOARD_ROUTES) ->
  exists w' allowedRoles added,
    settle (S (S n)) (signedIn p uid r) w = Some w'
    /\ get DASHBOARD_ROUTES p = Some allowedRoles
    /\ (In r allowedRoles <-> p = "/" +:+ r)
    /\ (decision w' = ALLOW <-> In r allowedRoles)
    /\ (decision w' = DENY <-> ~ In r allowedRoles)
    /\ isAuthLoading w' = false
    /\ trace w' = trace w ++ added
    /\ (In r allowedRoles ->
        isRoleLoaded (local w) = false \/ userRole (local w) = Some r ->
        existsb isPush added = false)
    /\ (~ In r allowedRoles ->
        exists pre post,
          trace w' =
            pre ++ [ConsoleWarn (Some uid) (Some r) p;
                    SetAuthLoading false; RouterPush "/sign-in"] ++ post
          /\ existsb isSignal post = false).
Proof.
  intros R U Hr Hp.
  set (h := signedIn p uid r).
  destruct (settle_any n h w R eq_refl)
    as (w' & S & _ & _ & D & F & (pre & post & T & Q) & Tw).
  assert (G : getDashboardRoute p = Some p).
  { simpl in Hp.
    repeat destruct Hp as [<-|Hp]; try contradiction; reflexivity. }
  assert (TR : truthy (Some r) = true).
  { simpl in Hr. repeat destruct Hr as [<-|Hr]; try contradiction;
      reflexivity. }
  assert (OP : onProtectedRoute h = true)
    by (apply (onProtectedRoute_path h p eq_refl),
          (dashboard_is_protected p p G)).
  destruct (effect2_dashboard h p p (loadedState h) eq_refl G eq_refl eq_refl
              (truthy_nonempty uid U)) as (allowed & A & E2).
  assert (UR : userRole (loadedState h) = Some r)
    by (unfold h; rewrite signedIn_resolved; auto).
  rewrite UR, TR in E2. change (default EmptyString (Some r)) with r in E2.
  cbn [userId signedIn h negb orb] in E2.
  assert (I : includes allowed r = true <-> In r allowed).
  { unfold includes. rewrite existsb_exists. split.
    - intros (x & Hx & Ex). apply String.eqb_eq in Ex. congruence.
    - intros Hx. exists r. split; [exact Hx | apply String.eqb_refl]. }
  assert (Own : includes allowed r = true <-> p = "/" +:+ r).
  { simpl in Hr, Hp.
    repeat destruct Hr as [<-|Hr]; try contradiction;
      repeat destruct Hp as [<-|Hp]; try contradiction;
      injection A as <-; split; intros X; try reflexivity;
      discriminate X. }
  assert (Quiet : includes allowed r = true ->
                  isRoleLoaded (local w) = false
                  \/ userRole (local w) = Some r ->
                  effect2 h (local w) = []
                  \/ effect2 h (local w) = [SetAuthLoading false]).
  { intros Inc X. destruct (isRoleLoaded (local w)) eqn:RL.
    - destruct X as [X|X]; [discriminate X|]. right.
      destruct (effect2_dashboard h p p (local w) eq_refl G eq_refl RL
                  (truthy_nonempty uid U)) as (allowed' & A' & E').
      rewrite A in A'. injection A' as <-.
      rewrite E', X, TR. change (default EmptyString (Some r)) with r.
      rewrite Inc. reflexivity.
    - left. apply effect2_role_pending; assumption. }
  rewrite E2 in D, T, Tw. clear E2.
  exists w', allowed.
  exists (commitCmds h w
            ++ (if bool_decide (local w = loadedState h) then []
                else if negb (includes allowed r)
                     then [ConsoleWarn (Some uid) (Some r) p;
                           SetAuthLoading false; RouterPush "/sign-in"]
                     else [SetAuthLoading false])).
  split; [exact S|]. split; [exact A|].
  split; [rewrite <- I; exact Own|].
  assert (Fl : isAuthLoading w' = false).
  { apply F. rewrite D. destruct (includes allowed r); discriminate. }
  rewrite <- I. clear Own I F.
  destruct (includes allowed r); cbn [negb] in D, T, Tw, Quiet |- *.
  - split; [split; auto|].
    split; [split; [rewrite D; discriminate
                   | intros X; exfalso; apply X; reflexivity]|].
    split; [exact Fl|]. split; [exact Tw|]. split.
    + intros _ X. rewrite existsb_app. apply orb_false_iff. split.
      * unfold commitCmds. rewrite !existsb_app.
        destruct (runs0 w h); rewrite ?effect0_no_push;
          destruct (runs1 w h); rewrite ?effect1_no_push;
          destruct (runs2 w h); try reflexivity;
          destruct (Quiet eq_refl X) as [-> | ->]; reflexivity.
      * destruct (bool_decide (local w = loadedState h)); reflexivity.
    + intros X. exfalso. apply X. reflexivity.
  - split; [split; [rewrite D|]; discriminate|].
    split; [split; [discriminate | intros _; exact D]|].
    split; [exact Fl|]. split; [exact Tw|]. split.
    + discriminate.
    + intros _. exists pre, post. split; [exact T | exact Q].
Qed.

Lemma settled_dashboard_matrix_witness :
  exists w' allowedRoles added,
    settle 2 (signedIn "/admin" "user_1" "student")
      (commit (loading "/admin") mount) = Some w'
    /\ get DASHBOARD_ROUTES "/admin" = Some allowedRoles
    /\ (In "student" allowedRoles <-> "/admin" = "/" +:+ "student")
    /\ (decision w' = ALLOW <-> In "student" allowedRoles)
    /\ (decision w' = DENY <-> ~ In "student" allowedRoles)
    /\ isAuthLoading w' = false
    /\ trace w' = trace (commit (loading "/admin") mount) ++ added
    /\ (In "student" allowedRoles ->
        isRoleLoaded (local (commit (loading "/admin") mount)) = false
        \/ userRole (local (commit (loading "/admin") mount))
           = Some "student" ->
        existsb isPush added = false)
    /\ (~ In "student" allowedRoles ->
        exists pre post,
          trace w' =
            pre ++ [ConsoleWarn (Some "user_1") (Some "student") "/admin";
                    SetAuthLoading false; RouterPush "/sign-in"] ++ post
          /\ existsb isSignal post = false).
Proof.
  apply (settled_dashboard_matrix 0 (commit (loading "/admin") mount)
           "user_1" "student" "/admin");
    [repeat constructor | discriminate | simpl; auto | simpl; auto].
Defined.

(** C2: the matrix fails on the code where the cells of the protector
    still hold what an earlier render left in them. (1) A page load of
    [/admin] by an admin, where Clerk reports the user id before it
    delivers the user object: the first render denies, with a warning and
    a redirect to the sign-in page, and only the render that brings the
    user object allows. (2) Signed out on [/sign-in], then a render on
    [/admin] as an admin: EFFECT 2 runs on the role left by the signed-out
    render and redirects before the run on the role just read allows.
    (3) An admin on [/admin], then a student in the same place: the first
    commit allows on the admin's role, with the loader down, and only the
    second denies. *)
Theorem dashboard_matrix_stale_role :
  (exists w1 w2,
      settle 2 (noRole "/admin" "user_1") mount = Some w1
      /\ decision w1 = DENY
      /\ trace w1 =
          [SetAuthLoading true; SetIsRoleLoaded true; SetUserRole None;
           ConsoleWarn (Some "user_1") None "/admin";
           SetAuthLoading false; RouterPush "/sign-in"]
      /\ settle 2 (signedIn "/admin" "user_1" "admin") w1 = Some w2
      /\ decision w2 = ALLOW
      /\ trace w2 =
          trace w1 ++ [ReadClaims; SetUserRole (Some "admin");
                       SetIsRoleLoaded true; SetAuthLoading false])
  /\ (exists w',
         Reachable (signedOutOn "/sign-in")
         /\ local (signedOutOn "/sign-in")
            = {| userRole := None; isRoleLoaded := true |}
         /\ settle 2 (signedIn "/admin" "user_1" "admin")
              (signedOutOn "/sign-in") = Some w'
         /\ decision w' = ALLOW
         /\ trace w' =
             trace (signedOutOn "/sign-in")
               ++ [SetAuthLoading true; ReadClaims;
                   SetUserRole (Some "admin"); SetIsRoleLoaded true;
                   ConsoleWarn (Some "user_1") None "/admin";
                   SetAuthLoading false; RouterPush "/sign-in";
                   SetAuthLoading false])
  /\ (exists w1 w2,
         settle 2 (signedIn "/admin" "user_1" "admin") mount = Some w1
         /\ decision (commit (signedIn "/admin" "user_2" "student") w1)
            = ALLOW
         /\ isAuthLoading (commit (signedIn "/admin" "user_2" "student") w1)
            = false
         /\ settle 2 (signedIn "/admin" "user_2" "student") w1 = Some w2
         /\ decision w2 = DENY
         /\ trace w2 =
             trace w1
               ++ [ReadClaims; SetUserRole (Some "student");
                   SetIsRoleLoaded true; SetAuthLoading false;
                   ConsoleWarn (Some "user_2") (Some "student") "/admin";
                   SetAuthLoading false; RouterPush "/sign-in"]).
Proof.
  split; [|split].
  - eexists. eexists. split; [reflexivity|]. split; [reflexivity|].
    split; [reflexivity|]. split; [reflexivity|].
    split; reflexivity.
  - eexists. split; [unfold signedOutOn; repeat constructor|].
    split; [reflexivity|]. split; [reflexivity|]. split; reflexivity.
  - eexists. eexists. split; [reflexivity|]. split; [reflexivity|].
    split; [reflexivity|]. split; [reflexivity|].
    split; reflexivity.
Qed.

Lemma claimsReads_app (a b : list Cmd) :
  claimsReads (a ++ b) = claimsReads a + claimsReads b.
Proof. apply count_occ_app. Qed.

Lemma claimsReads_effect0 (h : Hooks) : claimsReads (effect0 h) = 0.
Proof. unfold effect0. destruct (onProtectedRoute h); reflexivity. Qed.

Lemma claimsReads_effect2 (h : Hooks) (st : LocalState) :
  claimsReads (effect2 h st) = 0.
Proof.
  unfold effect2.
  repeat match goal with
         | |- context [if ?b then _ else _] => destruct b
         | |- context [match ?x with _ => _ end] => destruct x
         end; reflexivity.
Qed.

(** One run of EFFECT 1 reads the claims once when somebody is signed in,
    and not at all otherwise. *)
Lemma claimsReads_effect1 (h : Hooks) :
  claimsReads (effect1 h) =
  if isLoaded h && truthy (userId h) && bool_decide (is_Some (user h))
  then 1 else 0.
Proof.
  unfold effect1, getUserRoleFromClaims.
  destruct (isLoaded h); [|reflexivity].
  destruct (truthy (userId h)); [|reflexivity].
  destruct (bool_decide (is_Some (user h))); [|reflexivity].
  cbn [negb orb andb]. destruct (readRole (user h)); reflexivity.
Qed.

(** C5, as stated, fails: with claims that cannot be read the check on
    [/admin] settles in DENY after a single read; there is no second
    attempt. *)
Lemma unreadable_role_no_retry :
  exists w',
    settle 2 (unreadable "/admin" "user_1") mount = Some w'
    /\ decision w' = DENY
    /\ trace w' =
        [SetAuthLoading true; ReadClaims; ConsoleError; SetUserRole None;
         SetIsRoleLoaded true;
         ConsoleWarn (Some "user_1") None "/admin";
         SetAuthLoading false; RouterPush "/sign-in"]
    /\ claimsReads (trace w') <> 2.
Proof.
  eexists. split; [reflexivity|]. split; [reflexivity|].
  split; [reflexivity|]. discriminate.
Qed.

(** C5, amended: when the role of a signed-in user cannot be read from the
    claims (the read throws, or yields no role), rendering a dashboard
    path settles in DENY from every reachable state, with the warning, the
    lowered loader and the redirect as the protector's last word and the
    loading flag false; the claims are read at most once in the whole
    session, exactly once after a fresh mount with a user object: no retry
    takes place. Where the cells hold no role when the render comes, no
    state of the session allows. *)
Theorem unreadable_role_is_denied (n : nat) (p d : string) (h : Hooks)
        (w : World) :
  Reachable w ->
  pathname h = Some p -> getDashboardRoute p = Some d ->
  isLoaded h = true -> truthy (userId h) = true ->
  resolvedRole h = None ->
  exists w' pre post,
    settle (S (S n)) h w = Some w'
    /\ decision w' = DENY
    /\ isAuthLoading w' = false
    /\ trace w' =
        pre ++ [ConsoleWarn (userId h) None d;
                SetAuthLoading false; RouterPush "/sign-in"] ++ post
    /\ existsb isSignal post = false
    /\ claimsReads (trace w') <= S (claimsReads (trace w))
    /\ (w = mount -> is_Some (user h) -> claimsReads (trace w') = 1)
    /\ (userRole (local w) = None ->
        decision (commit h w) <> ALLOW
        /\ (w' = commit h w \/ w' = commit h (commit h w))).
Proof.
  intros R E D L U RR.
  destruct (settle_any n h w R L)
    as (w' & S & _ & _ & Dn & F & (pre & post & T & Q) & Tw).
  destruct (effect2_dashboard h p d (loadedState h) E D L eq_refl U)
    as (allowed & _ & E2).
  cbn [userRole loadedState] in E2. rewrite RR in E2. cbn in E2.
  rewrite E2 in Dn, T.
  assert (W : w' = commit h w \/ w' = commit h (commit h w)).
  { pose proof S as S'. rewrite settle_two in S'.
    destruct (bool_decide (local (commit h w) = local w));
      injection S' as <-; auto. }
  exists w', pre, post. split; [exact S|]. split; [exact Dn|].
  split; [apply F; rewrite Dn; discriminate|].
  split; [exact T|]. split; [exact Q|].
  assert (C : claimsReads (trace w') =
              claimsReads (trace w)
              + claimsReads (if runs1 w h then effect1 h else [])).
  { rewrite Tw. unfold commitCmds.
    rewrite !claimsReads_app.
    assert (C0 : claimsReads (if runs0 w h then effect0 h else []) = 0)
      by (destruct (runs0 w h); [apply claimsReads_effect0 | reflexivity]).
    assert (C2 : claimsReads (if runs2 w h then effect2 h (local w) else [])
                 = 0)
      by (destruct (runs2 w h); [apply claimsReads_effect2 | reflexivity]).
    assert (C3 : claimsReads
                   (if bool_decide (local w = loadedState h) then []
                    else effect2 h (loadedState h)) = 0)
      by (destruct (bool_decide (local w = loadedState h));
          [reflexivity | apply claimsReads_effect2]).
    rewrite C0, C2, C3. lia. }
  split; [|split].
  - rewrite C. destruct (runs1 w h); [|cbn; lia].
    rewrite claimsReads_effect1.
    destruct (isLoaded h && truthy (userId h)
              && bool_decide (is_Some (user h))); lia.
  - intros -> Hu. rewrite C.
    cbn [runs1 mount rendered fmap option_fmap option_map changed trace].
    rewrite claimsReads_effect1, L, U, (bool_decide_eq_true_2 _ Hu).
    reflexivity.
  - intros UR. split.
    + rewrite (commit_decision h w R).
      destruct (isRoleLoaded (local w)) eqn:RL.
      * destruct (effect2_dashboard h p d (local w) E D L RL U)
          as (allowed' & _ & E').
        rewrite E', UR. discriminate.
      * rewrite effect2_role_pending; [discriminate | | exact RL].
        apply (onProtectedRoute_path h p E), (dashboard_is_protected p d D).
    + exact W.
Qed.

Lemma unreadable_role_is_denied_witness :
  exists w' pre post,
    settle 2 (unreadable "/teacher/classes" "user_1")
      (commit (loading "/teacher/classes") mount) = Some w'
    /\ decision w' = DENY
    /\ isAuthLoading w' = false
    /\ trace w' =
        pre ++ [ConsoleWarn (Some "user_1") None "/teacher";
                SetAuthLoading false; RouterPush "/sign-in"] ++ post
    /\ existsb isSignal post = false
    /\ claimsReads (trace w')
       <= S (claimsReads (trace (commit (loading "/teacher/classes") mount)))
    /\ (commit (loading "/teacher/classes") mount = mount ->
        is_Some (user (unreadable "/teacher/classes" "user_1")) ->
        claimsReads (trace w') = 1)
    /\ (userRole (local (commit (loading "/teacher/classes") mount)) = None ->
        decision (commit (unreadable "/teacher/classes" "user_1")
                    (commit (loading "/teacher/classes") mount)) <> ALLOW
        /\ (w' = commit (unreadable "/teacher/classes" "user_1")
                   (commit (loading "/teacher/classes") mount)
            \/ w' = commit (unreadable "/teacher/classes" "user_1")
                      (commit (unreadable "/teacher/classes" "user_1")
                         (commit (loading "/teacher/classes") mount)))).
Proof.
  apply (unreadable_role_is_denied 0 "/teacher/classes" "/teacher"
           (unreadable "/teacher/classes" "user_1")
           (commit (loading "/teacher/classes") mount));
    [repeat constructor | reflexivity | reflexivity | reflexivity
    | reflexivity | reflexivity].
Defined.

End DecisionFacts.

(** ** The loading flag and what is mounted *)

Module FlagFacts.
Import Js RoutePolicy Protector Layout RouteFacts Spec ProtectorFacts
       DecisionFacts.


(** A run of EFFECT 2 that admits does one thing: it lowers the loader. *)
Lemma effect2_allow (h : Hooks) (st : LocalState) :
  decisionOf (effect2 h st) = ALLOW -> effect2 h st = [SetAuthLoading false].
Proof.
  unfold effect2.
  repeat match goal with
         | |- context [if ?b then _ else _] => destruct b
         | |- context [match ?x with _ => _ end] => destruct x
         end; try reflexivity; discriminate.
Qed.





(** C1, as stated, fails: while Clerk is still loading on [/admin] the
    loading flag is true and the admin page is mounted all the same. *)
Lemma protected_subtree_mounted_while_loading : ~ MountGatedByFlag.
Proof.
  intros H.
  apply (H (commit (loading "/admin") mount) false
           [Page "admin dashboard"] (Page "admin dashboard")).
  - reflexivity.
  - left. reflexivity.
  - right. left. reflexivity.
Qed.

(** C1, amended: the root layout mounts the protected subtree whatever the
    loading flag is, and mounts the full-screen loader over it exactly
    when the flag is true, looking at nothing but the flag; a run of
    EFFECT 2 that admits does nothing but set the flag to false, so after
    the commit of every ALLOW outcome the flag is false and the loader is
    gone from over the subtree. *)
Theorem overlay_gated_by_flag :
  (forall w signInVisible children page,
      In page children -> In page (mounted w signInVisible children))
  /\ (forall w signInVisible children,
        ~ In LoaderOverlay children ->
        (In LoaderOverlay (mounted w signInVisible children)
         <-> isAuthLoading w = true))
  /\ (forall h st,
        decisionOf (effect2 h st) = ALLOW ->
        effect2 h st = [SetAuthLoading false])
  /\ (forall h w signInVisible children,
        runs2 w h = true -> decision (commit h w) = ALLOW ->
        ~ In LoaderOverlay children ->
        isAuthLoading (commit h w) = false
        /\ ~ In LoaderOverlay (mounted (commit h w) signInVisible children)).
Proof.
  assert (G : forall w signInVisible children,
             ~ In LoaderOverlay children ->
             (In LoaderOverlay (mounted w signInVisible children)
              <-> isAuthLoading w = true)).
  { intros w v children NI. unfold mounted, RootLayout, AuthLoadingOverlay,
      SignInLoader, Layout.RouteProtector.
    destruct (isAuthLoading w); cbn [negb].
    - split; [reflexivity|]. intros _. left. reflexivity.
    - split; [|discriminate]. intros H. exfalso.
      cbn [app] in H. apply in_app_or in H as [H|H].
      + destruct v; cbn in H; intuition discriminate.
      + apply in_app_or in H as [H|H]; [auto|].
        cbn in H. intuition discriminate. }
  split; [|split; [exact G|split; [exact effect2_allow|]]].
  - intros w v children page H. unfold mounted, RootLayout.
    apply in_or_app. right. apply in_or_app. right.
    unfold Layout.RouteProtector. apply in_or_app. left. exact H.
  - intros h w v children R2 D NI.
    assert (F : isAuthLoading (commit h w) = false).
    { rewrite commit_spec in D. cbn [decision] in D. rewrite R2 in D.
      rewrite commit_flag, R2, (effect2_allow _ _ D). reflexivity. }
    split; [exact F|]. rewrite (G _ v children NI), F. discriminate.
Qed.

Lemma overlay_gated_by_flag_witness :
  In (Page "student dashboard")
     (mounted (commit (loading "/student") mount) false
              [Page "student dashboard"])
  /\ In LoaderOverlay
        (mounted (commit (loading "/student") mount) false
                 [Page "student dashboard"])
  /\ isAuthLoading
       (commit (signedIn "/student" "user_1" "student")
          (commit (signedIn "/student" "user_1" "student") mount)) = false.
Proof.
  destruct overlay_gated_by_flag as (H1 & H2 & _ & H4).
  split; [apply H1; left; reflexivity|]. split.
  - apply H2; [|reflexivity]. intros [H|[]]. discriminate H.
  - apply (H4 _ _ false []); [reflexivity | reflexivity | intros []].
Defined.

End FlagFacts.

(** ** The role endpoints *)

Module ApiFacts.
Import Js Backend Spec.

Lemma field_roleRequest (c : option string) (id : string) :
  field (roleRequest c id) "userId" = JString id.
Proof.
  unfold field, roleRequest. cbn [body]. rewrite lookup_singleton_eq.
  reflexivity.
Qed.

Lemma field_updateRequest (c : option string) (id r : string) :
  field (updateRequest c id r) "userId" = JString id
  /\ field (updateRequest c id r) "newRole" = JString r.
Proof.
  unfold field, updateRequest. cbn [body]. split.
  - rewrite lookup_insert_ne by discriminate.
    rewrite lookup_singleton_eq. reflexivity.
  - rewrite lookup_insert_eq. reflexivity.
Qed.

Lemma truthyValue_nonempty (id : string) :
  id <> EmptyString -> truthyValue (JString id) = true.
Proof.
  intros N. simpl.
  destruct (String.eqb_spec id EmptyString); [contradiction|reflexivity].
Qed.

(** What the role endpoint does with a well-formed request. *)
Lemma role_serve_spec (req : Request) (id : string) (s : State) :
  method req = "POST" -> field req "userId" = JString id -> id <> EmptyString ->
  dbOnline s = true ->
  RoleApi.serve req s =
  match users s !! id with
  | Some row => ({| status := 200; json := RoleOf (role row) |}, s)
  | None =>
      ({| status := 200; json := RoleOf "student" |},
       {| users :=
            <[id := {| email := EmptyString; role := "student" |}]> (users s);
          dbOnline := dbOnline s;
          publicMetadataRole := publicMetadataRole s;
          clerkOutcomes := clerkOutcomes s;
          console :=
            console s
              ++ ["Auto-created user " +:+ id +:+ " with role: student"] |})
  end.
Proof.
  intros Mp F N O.
  unfold RoleApi.serve, RoleApi.handler, answer, tryCatch.
  rewrite Mp, F, (truthyValue_nonempty id N), String.eqb_refl.
  cbn [negb orb isString].
  unfold mbind, M_bind, bind, findUnique, create, log, respond, ret, withUsers.
  rewrite O. destruct (users s !! id) as [row|] eqn:E; cbn.
  - reflexivity.
  - rewrite O, E. reflexivity.
Qed.

(** The role endpoint never looks at who is asking. *)
Lemma role_serve_caller (req1 req2 : Request) (s : State) :
  method req1 = method req2 -> body req1 = body req2 ->
  RoleApi.serve req1 s = RoleApi.serve req2 s.
Proof.
  intros Mq Bq. unfold RoleApi.serve, RoleApi.handler, field.
  rewrite Mq, Bq. reflexivity.
Qed.

(** Fetching again finds the row and returns its role. *)
Lemma role_serve_found (req : Request) (id : string) (row : UserRow)
      (s : State) :
  method req = "POST" -> field req "userId" = JString id -> id <> EmptyString ->
  dbOnline s = true -> users s !! id = Some row ->
  RoleApi.serve req s = ({| status := 200; json := RoleOf (role row) |}, s).
Proof.
  intros Mp F N O E. rewrite (role_serve_spec req id s Mp F N O), E.
  reflexivity.
Qed.

(** What the update endpoint does with a well-formed request for an
    existing row: one write to the table, then one call to Clerk. *)
Lemma update_serve_spec (req : Request) (id r : string) (row : UserRow)
      (s : State) :
  method req = "POST" ->
  field req "userId" = JString id -> id <> EmptyString ->
  field req "newRole" = JString r -> In r UpdateRoleApi.validRoles ->
  dbOnline s = true -> users s !! id = Some row ->
  UpdateRoleApi.serve req s =
  if match clerkOutcomes s with [] => true | o :: _ => o end
  then
    ({| status := 200; json := RoleOf r |},
     {| users := <[id := {| email := email row; role := r |}]> (users s);
        dbOnline := dbOnline s;
        publicMetadataRole := <[id := r]> (publicMetadataRole s);
        clerkOutcomes := tail (clerkOutcomes s);
        console :=
          console s ++ ["Updated user " +:+ id +:+ " role to: " +:+ r] |})
  else
    ({| status := 500; json := ErrorOf "Internal server error" |},
     {| users := <[id := {| email := email row; role := r |}]> (users s);
        dbOnline := dbOnline s;
        publicMetadataRole := publicMetadataRole s;
        clerkOutcomes := tail (clerkOutcomes s);
        console := console s ++ ["Error updating user role:"] |}).
Proof.
  intros Mp F N Fr Hr O E.
  unfold UpdateRoleApi.serve, UpdateRoleApi.handler, answer, tryCatch.
  rewrite Mp, F, Fr, (truthyValue_nonempty id N), String.eqb_refl.
  assert (truthyValue (JString r) = true
          /\ UpdateRoleApi.includesValue UpdateRoleApi.validRoles (JString r)
             = true) as [-> ->].
  { simpl in Hr. repeat destruct Hr as [<-|Hr]; try contradiction;
      split; reflexivity. }
  cbn [negb orb isString].
  unfold mbind, M_bind, bind, update, updateUserMetadata, log, respond, ret,
    withUsers.
  rewrite O, E. cbn.
  destruct (clerkOutcomes s) as [|[] rest]; reflexivity.
Qed.

(** C10: the answer of the role endpoint and the state it leaves depend
    on the method and the body only, not on the caller: two POST requests
    with the same body against the same stores get the same answer,
    whoever sends them, signed in or not; with the database reachable and
    a non-empty [userId] that answer is the role of the row, which is
    created with role [student] when it is missing. *)
Theorem role_fetch_ignores_caller (req1 req2 : Request) (s : State) :
  method req1 = "POST" -> method req2 = "POST" -> body req1 = body req2 ->
  RoleApi.serve req1 s = RoleApi.serve req2 s
  /\ forall id,
      field req1 "userId" = JString id -> id <> EmptyString ->
      dbOnline s = true ->
      exists r s',
        RoleApi.serve req2 s = ({| status := 200; json := RoleOf r |}, s')
        /\ r = default "student" (role <$> users s !! id)
        /\ role <$> users s' !! id = Some r.
Proof.
  intros M1 M2 B.
  assert (Q : RoleApi.serve req1 s = RoleApi.serve req2 s)
    by (apply role_serve_caller; congruence).
  split; [exact Q|]. intros id F N O.
  rewrite <- Q, (role_serve_spec req1 id s M1 F N O).
  destruct (users s !! id) as [row|] eqn:E.
  - exists (role row), s. rewrite E. auto.
  - eexists _, _. split; [reflexivity|]. split; [reflexivity|].
    cbn [users]. rewrite lookup_insert_eq. reflexivity.
Qed.

Lemma role_fetch_ignores_caller_witness :
  RoleApi.serve (roleRequest (Some "u2") "u1") oneStudent
  = RoleApi.serve (roleRequest None "u1") oneStudent
  /\ forall id,
      field (roleRequest (Some "u2") "u1") "userId" = JString id ->
      id <> EmptyString -> dbOnline oneStudent = true ->
      exists r s',
        RoleApi.serve (roleRequest None "u1") oneStudent
        = ({| status := 200; json := RoleOf r |}, s')
        /\ r = default "student" (role <$> users oneStudent !! id)
        /\ role <$> users s' !! id = Some r.
Proof.
  apply (role_fetch_ignores_caller (roleRequest (Some "u2") "u1")
           (roleRequest None "u1") oneStudent);
    reflexivity.
Defined.

(** C6, as stated, fails: the first fetch for [u1] creates the row with
    role [student] but writes nothing to Clerk, so the claims carry no
    role for [u1], and the route protector, which reads the claims, turns
    [u1] away from [/student]. *)
Lemma first_touch_not_mirrored :
  exists s',
    RoleApi.serve (roleRequest (Some "u1") "u1") oneStudent
    = ({| status := 200; json := RoleOf "student" |}, s')
    /\ role <$> users s' !! "u1" = Some "student"
    /\ publicMetadataRole s' !! "u1" = None
    /\ exists w,
        Protector.settle 2 (tokenFor s' "/student" "u1") Protector.mount
        = Some w
        /\ Protector.decision w = Protector.DENY.
Proof.
  eexists. split; [reflexivity|]. split; [reflexivity|].
  split; [reflexivity|]. eexists. split; reflexivity.
Qed.

(** C6, amended: for every non-empty identity with no row in the table
    and the database reachable, the role endpoint creates the row with
    role [student] (and an empty email) and answers 200 with that role,
    not an error; it calls Clerk not at all and leaves the claims as they
    were; fetching again with the row unchanged gives the same answer and
    changes nothing. *)
Theorem first_touch_provisioning (c : option string) (id : string)
        (s : State) :
  id <> EmptyString -> dbOnline s = true -> users s !! id = None ->
  exists s',
    RoleApi.serve (roleRequest c id) s
    = ({| status := 200; json := RoleOf "student" |}, s')
    /\ users s'
       = <[id := {| email := EmptyString; role := "student" |}]> (users s)
    /\ publicMetadataRole s' = publicMetadataRole s
    /\ clerkOutcomes s' = clerkOutcomes s
    /\ RoleApi.serve (roleRequest c id) s'
       = ({| status := 200; json := RoleOf "student" |}, s').
Proof.
  intros N O E.
  rewrite (role_serve_spec (roleRequest c id) id s eq_refl
             (field_roleRequest c id) N O), E.
  eexists. split; [reflexivity|]. cbn [users publicMetadataRole clerkOutcomes].
  repeat (split; [reflexivity|]).
  apply (role_serve_found (roleRequest c id) id
           {| email := EmptyString; role := "student" |});
    [reflexivity | apply field_roleRequest | exact N | exact O |].
  cbn [users]. apply lookup_insert_eq.
Qed.

Lemma first_touch_provisioning_witness :
  exists s',
    RoleApi.serve (roleRequest None "u1") oneStudent
    = ({| status := 200; json := RoleOf "student" |}, s')
    /\ users s'
       = <[ "u1" := {| email := EmptyString; role := "student" |}]>
           (users oneStudent)
    /\ publicMetadataRole s' = publicMetadataRole oneStudent
    /\ clerkOutcomes s' = clerkOutcomes oneStudent
    /\ RoleApi.serve (roleRequest None "u1") s'
       = ({| status := 200; json := RoleOf "student" |}, s').
Proof.
  apply (first_touch_provisioning None "u1" oneStudent);
    [discriminate | reflexivity | reflexivity].
Defined.

(** A 200 from the update endpoint means that both writes went through. *)
Lemma update_serve_success (req : Request) (s : State) :
  status (fst (UpdateRoleApi.serve req s)) = 200 ->
  exists id r,
    field req "userId" = JString id
    /\ field req "newRole" = JString r
    /\ In r UpdateRoleApi.validRoles
    /\ json (fst (UpdateRoleApi.serve req s)) = RoleOf r
    /\ role <$> users (snd (UpdateRoleApi.serve req s)) !! id = Some r
    /\ publicMetadataRole (snd (UpdateRoleApi.serve req s)) !! id = Some r.
Proof.
  unfold UpdateRoleApi.serve, UpdateRoleApi.handler, answer, tryCatch.
  destruct (String.eqb (method req) "POST"); cbn [negb];
    [|cbn; discriminate].
  destruct (field req "userId") as [| |id|t];
    cbn [truthyValue isString negb orb];
    try (cbn; discriminate);
    try (destruct t; cbn; discriminate).
  destruct (String.eqb id EmptyString); cbn [negb orb]; [cbn; discriminate|].
  destruct (field req "newRole") as [| |r|t];
    cbn [truthyValue UpdateRoleApi.includesValue negb orb];
    try (cbn; discriminate);
    try (destruct t; cbn; discriminate).
  destruct (String.eqb r EmptyString); cbn [negb orb]; [cbn; discriminate|].
  destruct (includes UpdateRoleApi.validRoles r) eqn:I; cbn [negb];
    [|cbn; discriminate].
  unfold mbind, M_bind, bind, update, updateUserMetadata, log, respond, ret,
    withUsers.
  destruct (dbOnline s); [|cbn; discriminate].
  destruct (users s !! id) as [row|]; [|cbn; discriminate].
  destruct (clerkOutcomes s) as [|[] rest]; cbn; try discriminate;
    intros _; exists id, r;
    (repeat split; try reflexivity;
     [ unfold includes in I; apply existsb_exists in I as (x & Hx & Ex);
       apply String.eqb_eq in Ex; subst x; exact Hx
     | rewrite lookup_insert_eq; reflexivity
     | rewrite lookup_insert_eq; reflexivity ]).
Qed.

(** C7, as stated, fails: when the call to Clerk fails after the row was
    updated, the endpoint answers 500 and stops; the row says [teacher],
    the claims still say [student], and the next call to Clerk, which
    would have gone through, is never made. *)
Lemma mirror_failure_not_retried :
  exists s',
    UpdateRoleApi.serve (updateRequest (Some "admin_1") "u2" "teacher")
                        oneStudentClerkHiccup
    = ({| status := 500; json := ErrorOf "Internal server error" |}, s')
    /\ role <$> users s' !! "u2" = Some "teacher"
    /\ publicMetadataRole s' !! "u2" = Some "student"
    /\ clerkOutcomes s' = [true].
Proof. eexists. repeat split; reflexivity. Qed.

(** C7, amended: the update endpoint writes the row, then the claims, in
    one request: whenever it answers 200, the row and the claims both hold
    the new role; when the call to Clerk fails after the row was written,
    it answers 500 with the row at the new role and the claims as they
    were, having called Clerk exactly once: there is no retry. *)
Theorem update_writes_row_then_claims (req : Request) (s : State) :
  (status (fst (UpdateRoleApi.serve req s)) = 200 ->
   exists id r,
     field req "userId" = JString id
     /\ field req "newRole" = JString r
     /\ json (fst (UpdateRoleApi.serve req s)) = RoleOf r
     /\ role <$> users (snd (UpdateRoleApi.serve req s)) !! id = Some r
     /\ publicMetadataRole (snd (UpdateRoleApi.serve req s)) !! id = Some r)
  /\ (forall id r row rest,
        method req = "POST" ->
        field req "userId" = JString id -> id <> EmptyString ->
        field req "newRole" = JString r -> In r UpdateRoleApi.validRoles ->
        dbOnline s = true -> users s !! id = Some row ->
        clerkOutcomes s = false :: rest ->
        exists s',
          UpdateRoleApi.serve req s
          = ({| status := 500; json := ErrorOf "Internal server error" |}, s')
          /\ users s' !! id = Some {| email := email row; role := r |}
          /\ publicMetadataRole s' = publicMetadataRole s
          /\ clerkOutcomes s' = rest).
Proof.
  split.
  - intros H. destruct (update_serve_success req s H)
      as (id & r & F & Fr & _ & J & U & C).
    exists id, r. auto.
  - intros id r row rest Mp F N Fr Hr O E C.
    rewrite (update_serve_spec req id r row s Mp F N Fr Hr O E), C.
    eexists. split; [reflexivity|].
    cbn [users publicMetadataRole clerkOutcomes tail].
    rewrite lookup_insert_eq. auto.
Qed.

Lemma update_writes_row_then_claims_witness :
  (exists id r,
      field (updateRequest (Some "admin_1") "u2" "teacher") "userId"
      = JString id
      /\ field (updateRequest (Some "admin_1") "u2" "teacher") "newRole"
         = JString r
      /\ json (fst (UpdateRoleApi.serve
                      (updateRequest (Some "admin_1") "u2" "teacher")
                      oneStudent)) = RoleOf r
      /\ role <$> users (snd (UpdateRoleApi.serve
                      (updateRequest (Some "admin_1") "u2" "teacher")
                      oneStudent)) !! id = Some r
      /\ publicMetadataRole (snd (UpdateRoleApi.serve
                      (updateRequest (Some "admin_1") "u2" "teacher")
                      oneStudent)) !! id = Some r)
  /\ (exists s',
        UpdateRoleApi.serve (updateRequest (Some "admin_1") "u2" "teacher")
                            oneStudentClerkHiccup
        = ({| status := 500; json := ErrorOf "Internal server error" |}, s')
        /\ users s' !! "u2"
           = Some {| email := "u2@school.test"; role := "teacher" |}
        /\ publicMetadataRole s' = publicMetadataRole oneStudentClerkHiccup
        /\ clerkOutcomes s' = [true]).
Proof.
  split.
  - apply (update_writes_row_then_claims
             (updateRequest (Some "admin_1") "u2" "teacher") oneStudent).
    reflexivity.
  - apply (update_writes_row_then_claims
             (updateRequest (Some "admin_1") "u2" "teacher")
             oneStudentClerkHiccup)
      with (row := {| email := "u2@school.test"; role := "student" |});
      try reflexivity; [discriminate | simpl; auto].
Defined.

(** C9: the update endpoint at a request nobody signed: it answers 200 and
    makes [u2] an admin in the table and in the claims.  The endpoint
    never looks at the caller, so every caller gets what a privileged one
    gets. *)
Theorem update_ignores_caller :
  (exists s',
      UpdateRoleApi.serve (updateRequest None "u2" "admin") oneStudent
      = ({| status := 200; json := RoleOf "admin" |}, s')
      /\ role <$> users s' !! "u2" = Some "admin"
      /\ publicMetadataRole s' !! "u2" = Some "admin")
  /\ (forall req1 req2 s,
        method req1 = method req2 -> body req1 = body req2 ->
        UpdateRoleApi.serve req1 s = UpdateRoleApi.serve req2 s).
Proof.
  split.
  - eexists. repeat split; reflexivity.
  - intros req1 req2 s Mq Bq.
    unfold UpdateRoleApi.serve, UpdateRoleApi.handler, field.
    rewrite Mq, Bq. reflexivity.
Qed.

Lemma update_ignores_caller_witness :
  UpdateRoleApi.serve (updateRequest None "u2" "admin") oneStudent
  = UpdateRoleApi.serve (updateRequest (Some "admin_1") "u2" "admin")
                        oneStudent.
Proof.
  destruct update_ignores_caller as [_ H]. apply H; reflexivity.
Defined.

(** The outermost [catch] of each handler leaves nothing thrown, so the
    fallback answer of [answer] is never used. *)
Lemma handlers_never_throw (req : Request) (s : State) :
  (exists r s', RoleApi.handler req s = (Normal r, s'))
  /\ (exists r s', UpdateRoleApi.handler req s = (Normal r, s')).
Proof.
  split.
  - unfold RoleApi.handler, tryCatch.
    destruct (negb (String.eqb (method req) "POST")); [cbn; eauto|].
    match goal with |- context [match ?m s with _ => _ end] =>
      destruct (m s) as [[r|] s'] end; cbn; eauto.
  - unfold UpdateRoleApi.handler, tryCatch.
    destruct (negb (String.eqb (method req) "POST")); [cbn; eauto|].
    match goal with |- context [match ?m s with _ => _ end] =>
      destruct (m s) as [[r|] s'] end; cbn; eauto.
Qed.

End ApiFacts.

(** ** More on the route protector *)

Module ProtectorMore.
Import Js RoutePolicy Protector Layout RouteFacts Spec ProtectorFacts
       DecisionFacts Samples.

(** A run of EFFECT 2 that decides, either way, lowers the loader. *)
Lemma effect2_decided_lowers (h : Hooks) (st : LocalState) (b : bool) :
  decisionOf (effect2 h st) <> PENDING ->
  fold_left flagStep (effect2 h st) b = false.
Proof.
  unfold effect2.
  repeat match goal with
         | |- context [if ?c then _ else _] => destruct c
         | |- context [match ?x with _ => _ end] => destruct x
         end; intros D; try reflexivity; exfalso; apply D; reflexivity.
Qed.

(** EFFECT 2 on a protected path outside the dashboards, somebody signed
    in: no role is looked at. *)
Lemma effect2_list_route (h : Hooks) (p : string) (st : LocalState) :
  pathname h = Some p -> isProtectedRoute p = true ->
  getDashboardRoute p = None ->
  isLoaded h = true -> isRoleLoaded st = true ->
  truthy (userId h) = true ->
  effect2 h st = [SetAuthLoading false].
Proof.
  intros E P D L RL U. unfold effect2.
  rewrite (onProtectedRoute_path h p E P), L, RL, U, E. simpl default.
  rewrite D. reflexivity.
Qed.

(** X1: on a protected path that is not a dashboard ([/list], [/profile],
    [/settings], [/logout] and below), every signed-in user is let in,
    whatever the role in the claims, even with none. *)
Theorem list_routes_admit_any_role (n : nat) (p : string) (h : Hooks)
        (w : World) :
  Reachable w -> Navigates w h ->
  pathname h = Some p -> isProtectedRoute p = true ->
  getDashboardRoute p = None ->
  isLoaded h = true -> truthy (userId h) = true ->
  exists w',
    settle (S (S n)) h w = Some w'
    /\ decision w' = ALLOW
    /\ isAuthLoading w' = false.
Proof.
  intros R N E P D L U.
  destruct (settle_navigation n h w R N L) as (w' & S & _ & _ & Dn & _ & F).
  rewrite (effect2_list_route h p (loadedState h) E P D L eq_refl U) in Dn, F.
  exists w'. auto.
Qed.

Lemma list_routes_admit_any_role_witness :
  exists w',
    settle 2 (noRole "/list/subjects" "user_1") mount = Some w'
    /\ decision w' = ALLOW
    /\ isAuthLoading w' = false.
Proof.
  apply (list_routes_admit_any_role 0 "/list/subjects"
           (noRole "/list/subjects" "user_1") mount);
    [constructor | exact I | reflexivity | reflexivity | reflexivity
    | reflexivity | reflexivity].
Defined.

Lemma prefix_append_same (a b : string) : String.prefix a (a +:+ b) = true.
Proof.
  induction a as [|c a IH]; simpl; [apply prefix_empty|].
  destruct (ascii_dec c c); [exact IH | congruence].
Qed.

Lemma prefix_append_cancel (a b c : string) :
  String.prefix (a +:+ b) (a +:+ c) = String.prefix b c.
Proof.
  induction a as [|x a IH]; simpl; [reflexivity|].
  destruct (ascii_dec x x); [exact IH | congruence].
Qed.

Lemma eqb_append_empty (a b : string) :
  String.eqb (a +:+ b) a = String.eqb b EmptyString.
Proof.
  induction a as [|x a IH]; simpl.
  - destruct b; reflexivity.
  - rewrite Ascii.eqb_refl. exact IH.
Qed.

(** X2: a path that continues a dashboard key without a slash (such as
    [/administrator] or [/student-records]) counts as protected, yet no
    dashboard is found for it, so no role is required on it. *)
Theorem glued_suffix_skips_role_check (key suffix : string) :
  In key (keys DASHBOARD_ROUTES) ->
  suffix <> EmptyString -> startsWith suffix "/" = false ->
  isProtectedRoute (key +:+ suffix) = true
  /\ getDashboardRoute (key +:+ suffix) = None.
Proof.
  intros K NE NS. split.
  - unfold isProtectedRoute, some. apply existsb_exists. exists key. split.
    + unfold PROTECTED_ROUTES. apply in_or_app. left. exact K.
    + apply prefix_append_same.
  - destruct (getDashboardRoute (key +:+ suffix)) as [r|] eqn:G;
      [|reflexivity].
    exfalso. apply getDashboardRoute_key in G as [Kr M].
    assert (Mk : segmentMatch key (key +:+ suffix) = false).
    { unfold segmentMatch, startsWith.
      rewrite prefix_append_cancel, eqb_append_empty.
      unfold startsWith in NS. rewrite NS.
      destruct (String.eqb_spec suffix EmptyString); [contradiction|].
      reflexivity. }
    assert (r <> key) by (intros ->; congruence).
    simpl in K, Kr.
    repeat destruct K as [<-|K]; try contradiction;
      repeat destruct Kr as [<-|Kr]; try contradiction;
      try congruence;
      apply segmentMatch_head in M as (rest & [=]).
Qed.

Lemma glued_suffix_skips_role_check_witness :
  isProtectedRoute ("/admin" +:+ "istrator") = true
  /\ getDashboardRoute ("/admin" +:+ "istrator") = None.
Proof.
  apply (glued_suffix_skips_role_check "/admin" "istrator");
    [simpl; auto | discriminate | reflexivity].
Defined.

(** X3: on a path that is not protected the check never redirects: once
    Clerk has loaded, a navigation there settles in ALLOW with the loader
    down and without any [router.push], signed in or not. *)
Theorem public_paths_never_redirect (n : nat) (h : Hooks) (w : World) :
  Reachable w -> Navigates w h ->
  onProtectedRoute h = false -> isLoaded h = true ->
  exists w' added,
    settle (S (S n)) h w = Some w'
    /\ decision w' = ALLOW
    /\ isAuthLoading w' = false
    /\ trace w' = trace w ++ added
    /\ existsb isPush added = false.
Proof.
  intros R N P L.
  destruct (settle_navigation n h w R N L) as (w' & S & _ & _ & Dn & T & F).
  assert (E2 : forall st, effect2 h st = [SetAuthLoading false]).
  { intros st. unfold effect2. rewrite L, P. reflexivity. }
  rewrite !E2 in *. exists w'. eexists. split; [exact S|].
  split; [exact Dn|]. split; [exact F|]. split; [exact T|].
  rewrite !existsb_app. unfold effect0. rewrite P.
  assert (E1 : existsb isPush (effect1 h) = false).
  { unfold effect1, getUserRoleFromClaims.
    destruct (negb (isLoaded h)); [reflexivity|].
    destruct (negb (truthy (userId h)) || _); [reflexivity|].
    destruct (readRole (user h)); reflexivity. }
  destruct (runs1 w h); rewrite ?E1;
    destruct (bool_decide (local w = loadedState h)); reflexivity.
Qed.

Lemma public_paths_never_redirect_witness :
  exists w' added,
    settle 2 (signedOut "/sign-in") mount = Some w'
    /\ decision w' = ALLOW
    /\ isAuthLoading w' = false
    /\ trace w' = trace mount ++ added
    /\ existsb isPush added = false.
Proof.
  apply (public_paths_never_redirect 0 (signedOut "/sign-in") mount);
    [constructor | exact I | reflexivity | reflexivity].
Defined.

Lemma overlay_iff_flag (w : World) (v : bool) (children : list Node) :
  ~ In LoaderOverlay children ->
  (In LoaderOverlay (mounted w v children) <-> isAuthLoading w = true).
Proof.
  intros NI. unfold mounted, RootLayout, AuthLoadingOverlay, SignInLoader,
    Layout.RouteProtector.
  destruct (isAuthLoading w); cbn [negb].
  - split; [reflexivity|]. intros _. left. reflexivity.
  - split; [|discriminate]. intros H. exfalso.
    cbn [app] in H. apply in_app_or in H as [H|H].
    + destruct v; cbn in H; intuition discriminate.
    + apply in_app_or in H as [H|H]; [auto|].
      cbn in H. intuition discriminate.
Qed.

(** X4: every decision a navigation settles in, DENY included, takes the
    loader off the subtree, which stays mounted: after a denial the page
    the user was refused is mounted and uncovered until the router has
    moved on. *)
Theorem denial_uncovers_subtree (n : nat) (h : Hooks) (w w' : World)
        (signInVisible : bool) (children : list Node) (page : Node) :
  Reachable w -> Navigates w h -> isLoaded h = true ->
  settle (S (S n)) h w = Some w' ->
  decision w' <> PENDING ->
  In page children -> ~ In LoaderOverlay children ->
  isAuthLoading w' = false
  /\ In page (mounted w' signInVisible children)
  /\ ~ In LoaderOverlay (mounted w' signInVisible children).
Proof.
  intros R N L S D Hp NI.
  destruct (settle_navigation n h w R N L) as (w2 & S2 & _ & _ & Dn & _ & F).
  rewrite S in S2. injection S2 as <-.
  rewrite Dn in D.
  assert (Fl : isAuthLoading w' = false).
  { rewrite F. apply effect2_decided_lowers, D. }
  split; [exact Fl|]. split.
  - unfold mounted, RootLayout. apply in_or_app. right. apply in_or_app.
    right. unfold Layout.RouteProtector. apply in_or_app. left. exact Hp.
  - rewrite (overlay_iff_flag w' signInVisible children NI), Fl.
    discriminate.
Qed.

Lemma denial_uncovers_subtree_witness :
  isAuthLoading
    (commit (signedIn "/admin" "user_1" "student")
       (commit (signedIn "/admin" "user_1" "student") mount)) = false
  /\ In (Page "admin dashboard")
        (mounted
           (commit (signedIn "/admin" "user_1" "student")
              (commit (signedIn "/admin" "user_1" "student") mount))
           false [Page "admin dashboard"])
  /\ ~ In LoaderOverlay
        (mounted
           (commit (signedIn "/admin" "user_1" "student")
              (commit (signedIn "/admin" "user_1" "student") mount))
           false [Page "admin dashboard"]).
Proof.
  apply (denial_uncovers_subtree 0 (signedIn "/admin" "user_1" "student")
           mount);
    [constructor | exact I | reflexivity | reflexivity | discriminate
    | left; reflexivity | intros [H|[]]; discriminate H].
Defined.

(** X5: a settled state is stable: rendering again under the same hooks
    runs no effect, so nothing is redirected twice and the flag, the cells
    and the decision stay as they are. *)
Theorem settled_is_stable (n : nat) (h : Hooks) (w w' : World) :
  settle (S (S n)) h w = Some w' -> commit h w' = w'.
Proof.
  rewrite settle_two.
  assert (St : forall v, rendered v = Some (h, local v) -> commit h v = v).
  { intros v Rv. rewrite commit_spec, (commit_idle h v Rv). cbn [fold_left].
    rewrite app_nil_r, <- Rv.
    assert (runs2 v h = false) as ->.
    { unfold runs2. rewrite Rv. cbn.
      rewrite bool_decide_eq_true_2; reflexivity. }
    destruct v; reflexivity. }
  destruct (bool_decide (local (commit h w) = local w)) eqn:E;
    intros [= <-].
  - apply bool_decide_eq_true in E. apply St.
    rewrite E. reflexivity.
  - apply bool_decide_eq_false in E. apply St.
    destruct (commit_again h (local w) (commit h w)) as [C _].
    { rewrite commit_spec. reflexivity. }
    { exact E. }
    rewrite (commit_spec h (commit h w)). cbn [rendered local].
    rewrite C, effect2_local. reflexivity.
Qed.

Lemma settled_is_stable_witness :
  commit (signedOut "/admin")
    (commit (signedOut "/admin") (commit (signedOut "/admin") mount))
  = commit (signedOut "/admin") (commit (signedOut "/admin") mount).
Proof.
  apply (settled_is_stable 0 (signedOut "/admin") mount). reflexivity.
Defined.

End ProtectorMore.

(** ** More on the role endpoints *)

Module ApiMore.
Import Js Backend Spec Samples ApiFacts.

(** X6: the role endpoint never touches Clerk, and an answer other than
    200 (405 for another method, 400 for a missing, non-string or empty
    [userId], 500 when the database is down) leaves the table as it was. *)
Theorem role_fetch_failures_write_nothing (req : Request) (s : State) :
  publicMetadataRole (snd (RoleApi.serve req s)) = publicMetadataRole s
  /\ clerkOutcomes (snd (RoleApi.serve req s)) = clerkOutcomes s
  /\ (status (fst (RoleApi.serve req s)) <> 200 ->
      users (snd (RoleApi.serve req s)) = users s)
  /\ In (status (fst (RoleApi.serve req s))) [200; 400; 405; 500].
Proof.
  unfold RoleApi.serve, RoleApi.handler, answer, tryCatch.
  destruct (String.eqb (method req) "POST"); cbn [negb];
    [|cbn; intuition].
  destruct (field req "userId") as [| |id|t];
    cbn [truthyValue isString negb orb];
    try (cbn; solve [intuition]);
    try (destruct t; cbn; solve [intuition]).
  destruct (String.eqb id EmptyString); cbn [negb orb];
    [cbn; intuition|].
  unfold mbind, M_bind, bind, findUnique, create, log, respond, ret,
    withUsers.
  destruct (dbOnline s) eqn:O; [|cbn; intuition].
  destruct (users s !! id) as [row|] eqn:E; cbn.
  - intuition.
  - rewrite O, E. cbn. intuition.
Qed.

Lemma role_fetch_failures_write_nothing_witness :
  status (fst (RoleApi.serve (roleRequest None EmptyString) oneStudent)) <> 200
  /\ users (snd (RoleApi.serve (roleRequest None EmptyString) oneStudent))
     = users oneStudent.
Proof.
  destruct (role_fetch_failures_write_nothing
              (roleRequest None EmptyString) oneStudent) as (_ & _ & H & _).
  assert (N : status (fst (RoleApi.serve (roleRequest None EmptyString)
                             oneStudent)) <> 200) by discriminate.
  split; [exact N | exact (H N)].
Defined.

(** X7: the update endpoint writes nothing when it rejects a request (405,
    400), and for an identity without a row it answers 500 without calling
    Clerk: no claim is ever written for an identity the table does not
    know. *)
Theorem update_rejections_write_nothing (req : Request) (s : State) :
  (status (fst (UpdateRoleApi.serve req s)) = 400
   \/ status (fst (UpdateRoleApi.serve req s)) = 405 ->
   snd (UpdateRoleApi.serve req s) = s)
  /\ (forall id r,
        method req = "POST" ->
        field req "userId" = JString id -> id <> EmptyString ->
        field req "newRole" = JString r -> In r UpdateRoleApi.validRoles ->
        users s !! id = None ->
        status (fst (UpdateRoleApi.serve req s)) = 500
        /\ users (snd (UpdateRoleApi.serve req s)) = users s
        /\ publicMetadataRole (snd (UpdateRoleApi.serve req s))
           = publicMetadataRole s
        /\ clerkOutcomes (snd (UpdateRoleApi.serve req s)) = clerkOutcomes s).
Proof.
  split.
  - unfold UpdateRoleApi.serve, UpdateRoleApi.handler, answer, tryCatch.
    destruct (String.eqb (method req) "POST"); cbn [negb];
      [|cbn; reflexivity].
    destruct (field req "userId") as [| |id|t];
      cbn [truthyValue isString negb orb];
      try (cbn; reflexivity); try (destruct t; cbn; reflexivity).
    destruct (String.eqb id EmptyString); cbn [negb orb];
      [cbn; reflexivity|].
    destruct (field req "newRole") as [| |r|t];
      cbn [truthyValue UpdateRoleApi.includesValue negb orb];
      try (cbn; reflexivity); try (destruct t; cbn; reflexivity).
    destruct (String.eqb r EmptyString); cbn [negb orb];
      [cbn; reflexivity|].
    destruct (includes UpdateRoleApi.validRoles r); cbn [negb];
      [|cbn; reflexivity].
    unfold mbind, M_bind, bind, update, updateUserMetadata, log, respond,
      ret, withUsers.
    destruct (dbOnline s); [|cbn; intros [|]; discriminate].
    destruct (users s !! id) as [row|]; [|cbn; intros [|]; discriminate].
    destruct (clerkOutcomes s) as [|[] rest]; cbn; intros [|]; discriminate.
  - intros id r Mp F N Fr Hr E.
    unfold UpdateRoleApi.serve, UpdateRoleApi.handler, answer, tryCatch.
    rewrite Mp, F, Fr, (truthyValue_nonempty id N), String.eqb_refl.
    assert (truthyValue (JString r) = true
            /\ UpdateRoleApi.includesValue UpdateRoleApi.validRoles (JString r)
               = true) as [-> ->].
    { simpl in Hr. repeat destruct Hr as [<-|Hr]; try contradiction;
        split; reflexivity. }
    cbn [negb orb isString].
    unfold mbind, M_bind, bind, update, updateUserMetadata, log, respond,
      ret, withUsers.
    destruct (dbOnline s); rewrite ?E; cbn; auto.
Qed.

Lemma update_rejections_write_nothing_witness :
  snd (UpdateRoleApi.serve (updateRequest None "u2" "superuser") oneStudent)
  = oneStudent
  /\ status (fst (UpdateRoleApi.serve (updateRequest None "u9" "admin")
                    oneStudent)) = 500
  /\ publicMetadataRole
       (snd (UpdateRoleApi.serve (updateRequest None "u9" "admin")
               oneStudent))
     = publicMetadataRole oneStudent.
Proof.
  split.
  - apply (update_rejections_write_nothing
             (updateRequest None "u2" "superuser") oneStudent).
    left. reflexivity.
  - destruct (update_rejections_write_nothing
                (updateRequest None "u9" "admin") oneStudent) as [_ H].
    destruct (H "u9" "admin") as (H1 & _ & H3 & _);
      [reflexivity | reflexivity | discriminate | reflexivity
      | simpl; auto | reflexivity |].
    split; [exact H1 | exact H3].
Defined.

(** X9: after an update that answered 200, the role endpoint returns the
    new role for that identity, for any caller, and changes nothing. *)
Theorem update_then_fetch (req : Request) (c : option string) (id : string)
        (s : State) :
  status (fst (UpdateRoleApi.serve req s)) = 200 ->
  field req "userId" = JString id ->
  exists r,
    field req "newRole" = JString r
    /\ RoleApi.serve (roleRequest c id) (snd (UpdateRoleApi.serve req s))
       = ({| status := 200; json := RoleOf r |},
          snd (UpdateRoleApi.serve req s)).
Proof.
  intros H F.
  destruct (update_serve_success req s H)
    as (id' & r & F' & Fr & Hr & _ & U & _).
  assert (id' = id) as -> by congruence.
  exists r. split; [exact Fr|].
  revert U H. unfold UpdateRoleApi.serve, UpdateRoleApi.handler, answer,
    tryCatch.
  destruct (String.eqb (method req) "POST"); cbn [negb];
    [|cbn; discriminate].
  rewrite F, Fr. cbn [truthyValue isString negb orb].
  destruct (String.eqb_spec id EmptyString) as [->|N]; cbn [negb orb];
    [cbn; discriminate|].
  destruct (String.eqb r EmptyString); cbn [negb orb];
    [cbn; discriminate|].
  cbn [UpdateRoleApi.includesValue].
  destruct (includes UpdateRoleApi.validRoles r); cbn [negb];
    [|cbn; discriminate].
  unfold mbind, M_bind, bind, update, updateUserMetadata, log, respond,
    ret, withUsers.
  destruct (dbOnline s) eqn:O; [|cbn; discriminate].
  destruct (users s !! id) as [row|]; [|cbn; discriminate].
  destruct (clerkOutcomes s) as [|[] rest]; cbn; try discriminate;
    intros U _;
    (destruct (_ !! id) as [row'|] eqn:E in U; [|discriminate U]);
    injection U as U;
    (erewrite (role_serve_found (roleRequest c id) id row');
     [rewrite U; reflexivity | reflexivity | apply field_roleRequest
     | exact N | reflexivity | exact E]).
Qed.

Lemma update_then_fetch_witness :
  exists r,
    field (updateRequest (Some "admin_1") "u2" "teacher") "newRole"
    = JString r
    /\ RoleApi.serve (roleRequest None "u2")
         (snd (UpdateRoleApi.serve
                 (updateRequest (Some "admin_1") "u2" "teacher") oneStudent))
       = ({| status := 200; json := RoleOf r |},
          snd (UpdateRoleApi.serve
                 (updateRequest (Some "admin_1") "u2" "teacher") oneStudent)).
Proof.
  apply (update_then_fetch (updateRequest (Some "admin_1") "u2" "teacher")
           None "u2" oneStudent); reflexivity.
Defined.

End ApiMore.

(** ** The endpoints and the protector together *)

Module Scenarios.
Import Js RoutePolicy Protector RouteFacts Spec ProtectorFacts DecisionFacts
       Backend Samples ApiFacts.

(** After a fresh navigation, a signed-in user whose claims carry one of
    the four roles is let into the dashboard named after the role and
    turned away from the other three. *)
Lemma signedIn_decision (n : nat) (w : World) (uid r p : string) :
  Reachable w -> Navigates w (signedIn p uid r) -> uid <> EmptyString ->
  In r ROLES -> In p (keys DASHBOARD_ROUTES) ->
  exists w',
    settle (S (S n)) (signedIn p uid r) w = Some w'
    /\ decision w' = (if String.eqb p ("/" +:+ r) then ALLOW else DENY)
    /\ isAuthLoading w' = false.
Proof.
  intros R N U Hr Hp.
  destruct (settle_navigation n _ w R N eq_refl)
    as (w' & S & _ & _ & D & _ & F).
  assert (G : getDashboardRoute p = Some p).
  { simpl in Hp.
    repeat destruct Hp as [<-|Hp]; try contradiction; reflexivity. }
  destruct (effect2_dashboard (signedIn p uid r) p p
              (loadedState (signedIn p uid r)) eq_refl G eq_refl eq_refl
              (truthy_nonempty uid U)) as (allowed & A & E2).
  assert (UR : userRole (loadedState (signedIn p uid r)) = Some r)
    by (rewrite signedIn_resolved; auto).
  rewrite UR in E2. change (default EmptyString (Some r)) with r in E2.
  rewrite E2 in D, F. clear E2.
  exists w'. split; [exact S|].
  simpl in Hr, Hp.
  repeat destruct Hr as [<-|Hr]; try contradiction;
    repeat destruct Hp as [<-|Hp]; try contradiction;
    injection A as <-; split; assumption.
Qed.

Lemma update_success_nonempty (req : Request) (id : string) (s : State) :
  status (fst (UpdateRoleApi.serve req s)) = 200 ->
  field req "userId" = JString id -> id <> EmptyString.
Proof.
  intros H F ->. revert H.
  unfold UpdateRoleApi.serve, UpdateRoleApi.handler, answer, tryCatch.
  rewrite F. destruct (String.eqb (method req) "POST"); cbn; discriminate.
Qed.

(** X10: once the update endpoint has answered 200 and the session token
    carries Clerk's metadata, the route protector lets the identity into
    the dashboard of the new role and turns it away from the other three:
    the role change moves the user from one dashboard to the other. *)
Theorem update_then_navigate (n : nat) (req : Request) (id p : string)
        (s : State) :
  status (fst (UpdateRoleApi.serve req s)) = 200 ->
  field req "userId" = JString id ->
  In p (keys DASHBOARD_ROUTES) ->
  exists r w,
    field req "newRole" = JString r
    /\ settle (S (S n)) (tokenFor (snd (UpdateRoleApi.serve req s)) p id)
         mount = Some w
    /\ decision w = (if String.eqb p ("/" +:+ r) then ALLOW else DENY)
    /\ isAuthLoading w = false.
Proof.
  intros H F Hp.
  pose proof (update_success_nonempty req id s H F) as N.
  destruct (update_serve_success req s H)
    as (id' & r & F' & Fr & Hr & _ & _ & C).
  assert (id' = id) as -> by congruence.
  assert (T : tokenFor (snd (UpdateRoleApi.serve req s)) p id
              = signedIn p id r).
  { unfold tokenFor, signedIn. rewrite C. reflexivity. }
  rewrite T.
  destruct (signedIn_decision n mount id r p) as (w & S & D & Fl);
    [constructor | exact I | exact N | exact Hr | exact Hp |].
  exists r, w. auto.
Qed.

Lemma update_then_navigate_witness :
  exists r w,
    field (updateRequest (Some "admin_1") "u2" "teacher") "newRole"
    = JString r
    /\ settle 2
         (tokenFor
            (snd (UpdateRoleApi.serve
                    (updateRequest (Some "admin_1") "u2" "teacher")
                    oneStudent))
            "/student" "u2")
         mount = Some w
    /\ decision w
       = (if String.eqb "/student" ("/" +:+ r) then ALLOW else DENY)
    /\ isAuthLoading w = false.
Proof.
  apply (update_then_navigate 0
           (updateRequest (Some "admin_1") "u2" "teacher") "u2" "/student"
           oneStudent);
    [reflexivity | reflexivity | simpl; auto].
Defined.

End Scenarios.

(** ** The Clerk webhook *)

Module WebhookFacts.
Import Js Backend Spec Samples ApiFacts Webhook.

(** A request that carries no accepted event is answered 400 before the
    stores are looked at. *)
Lemma serve_not_accepted (verify : Verifier) (req : Webhook.Request)
      (s : State) :
  accepted verify req = None ->
  Webhook.status (fst (serve verify req s)) = 400
  /\ users (snd (serve verify req s)) = users s
  /\ publicMetadataRole (snd (serve verify req s)) = publicMetadataRole s
  /\ clerkOutcomes (snd (serve verify req s)) = clerkOutcomes s.
Proof.
  unfold accepted, serve, POST.
  destruct (svix_id req) as [i|]; [|cbn; auto].
  destruct (svix_timestamp req) as [t|]; [|cbn; auto].
  destruct (svix_signature req) as [g|]; [|cbn; auto].
  destruct (truthy (Some i)); [|cbn; auto].
  destruct (truthy (Some t)); [|cbn; auto].
  destruct (truthy (Some g)); [|cbn; auto].
  cbn [negb orb andb].
  destruct (verify (Webhook.body req) i t g); [discriminate|].
  cbn. auto.
Qed.

(** A request that carries an accepted event is answered by the event
    blocks. *)
Lemma serve_accepted (verify : Verifier) (req : Webhook.Request)
      (evt : Event) (s : State) :
  accepted verify req = Some evt ->
  serve verify req s =
  match process evt s with
  | (Normal r, s') => (r, s')
  | (Throw, s') =>
      ({| Webhook.status := 500; text := "Error processing webhook" |}, s')
  end.
Proof.
  unfold accepted, serve, POST.
  destruct (svix_id req) as [i|]; [|discriminate].
  destruct (svix_timestamp req) as [t|]; [|discriminate].
  destruct (svix_signature req) as [g|]; [|discriminate].
  destruct (truthy (Some i)); [|discriminate].
  destruct (truthy (Some t)); [|discriminate].
  destruct (truthy (Some g)); [|discriminate].
  cbn [negb orb andb].
  destruct (verify (Webhook.body req) i t g); [|discriminate].
  intros [= ->]. reflexivity.
Qed.

(** X11: a webhook request with a missing or empty Svix header, or with a
    signature the verifier refuses, is answered 400 and changes neither the
    table nor the claims, and Clerk is not called. *)
Theorem unverified_webhook_changes_nothing (verify : Verifier)
        (req : Webhook.Request) (s : State) :
  truthy (svix_id req) = false
  \/ truthy (svix_timestamp req) = false
  \/ truthy (svix_signature req) = false
  \/ (forall i t g,
        svix_id req = Some i -> svix_timestamp req = Some t ->
        svix_signature req = Some g ->
        verify (Webhook.body req) i t g = Throw) ->
  Webhook.status (fst (serve verify req s)) = 400
  /\ users (snd (serve verify req s)) = users s
  /\ publicMetadataRole (snd (serve verify req s)) = publicMetadataRole s
  /\ clerkOutcomes (snd (serve verify req s)) = clerkOutcomes s.
Proof.
  intros H. apply serve_not_accepted. unfold accepted.
  destruct (svix_id req) as [i|]; [|reflexivity].
  destruct (svix_timestamp req) as [t|]; [|reflexivity].
  destruct (svix_signature req) as [g|]; [|reflexivity].
  destruct H as [H|[H|[H|H]]].
  1-3: rewrite H, ?andb_false_r; reflexivity.
  rewrite (H i t g eq_refl eq_refl eq_refl).
  destruct (truthy (Some i) && truthy (Some t) && truthy (Some g));
    reflexivity.
Qed.

Lemma unverified_webhook_changes_nothing_witness :
  Webhook.status
    (fst (serve (onlySignature "v1,good"
                   (userEvent "user.deleted" "u2" None))
                (signed "v1,forged") oneStudent)) = 400
  /\ users (snd (serve (onlySignature "v1,good"
                          (userEvent "user.deleted" "u2" None))
                       (signed "v1,forged") oneStudent))
     = users oneStudent.
Proof.
  destruct (unverified_webhook_changes_nothing
              (onlySignature "v1,good" (userEvent "user.deleted" "u2" None))
              (signed "v1,forged") oneStudent)
    as (H1 & H2 & _).
  - right. right. right. intros i t g _ _ [= <-]. reflexivity.
  - split; [exact H1 | exact H2].
Defined.

(** What an accepted event can do to the stores: nothing, add a row with
    role [student] (and, if Clerk answers, the same role in the claims),
    change the email of a row, or delete a row. *)
Lemma process_effect (evt : Event) (s : State) :
  let s' := snd (process evt s) in
  (users s' = users s
   \/ (exists e,
         users s !! id (data evt) = None
         /\ users s'
            = <[id (data evt) := {| email := e; role := "student" |}]>
                (users s))
   \/ (exists e row,
         users s !! id (data evt) = Some row
         /\ users s'
            = <[id (data evt) := {| email := e; role := role row |}]>
                (users s))
   \/ users s' = delete (id (data evt)) (users s))
  /\ (publicMetadataRole s' = publicMetadataRole s
      \/ (users s !! id (data evt) = None
          /\ publicMetadataRole s'
             = <[id (data evt) := "student"]> (publicMetadataRole s)))
  /\ exists r, fst (process evt s) = Normal r.
Proof.
  destruct evt as [ty d]. cbn [data]. unfold process, afterCreated, tryCatch.
  cbn [type data].
  unfold mbind, M_bind, bind, create, updateUserMetadata, updateEmail,
    deleteUser, log, reply, ret, mret, M_ret, withUsers.
  destruct (String.eqb_spec ty "user.created") as [->|Nc].
  - cbn [String.eqb Ascii.eqb Bool.eqb].
    destruct (primaryEmail d) as [e|]; [|cbn; eauto 8].
    destruct (truthy (Some e)); [|cbn; eauto 8].
    destruct (dbOnline s); [|cbn; eauto 8].
    destruct (users s !! id d) as [row|] eqn:E; [cbn; eauto 8|].
    destruct (clerkOutcomes s) as [|[] rest]; cbn; eauto 12.
  - destruct (String.eqb_spec ty "user.updated") as [->|Nu].
    + cbn [String.eqb Ascii.eqb Bool.eqb].
      destruct (primaryEmail d) as [e|]; [|cbn; eauto 8].
      destruct (truthy (Some e)); [|cbn; eauto 8].
      destruct (dbOnline s); [|cbn; eauto 8].
      destruct (users s !! id d) as [row|] eqn:E; cbn; eauto 12.
    + destruct (String.eqb_spec ty "user.deleted") as [->|Nd].
      * cbn.
        destruct (dbOnline s); [|cbn; eauto 8].
        destruct (users s !! id d) as [row|] eqn:E; cbn; eauto 12.
      * cbn. eauto 8.
Qed.

Lemma serve_effect (verify : Verifier) (req : Webhook.Request) (s : State) :
  let s' := snd (serve verify req s) in
  (users s' = users s
   \/ (exists i e,
         users s !! i = None
         /\ users s' = <[i := {| email := e; role := "student" |}]> (users s))
   \/ (exists i e row,
         users s !! i = Some row
         /\ users s' = <[i := {| email := e; role := role row |}]> (users s))
   \/ (exists i, users s' = delete i (users s)))
  /\ (publicMetadataRole s' = publicMetadataRole s
      \/ exists i,
          publicMetadataRole s' = <[i := "student"]> (publicMetadataRole s)).
Proof.
  destruct (accepted verify req) as [evt|] eqn:A.
  - cbn zeta. rewrite (serve_accepted verify req evt s A).
    destruct (process_effect evt s) as (U & C & r & Pr).
    cbn zeta in U, C.
    destruct (process evt s) as [[r'|] s']; [|discriminate Pr].
    cbn [snd] in *. split.
    + destruct U as [U|[(e & N & U)|[(e & row & Sm & U)|U]]]; eauto 10.
    + destruct C as [C|[_ C]]; eauto.
  - destruct (serve_not_accepted verify req s A) as (_ & U & C & _).
    cbn zeta. auto.
Qed.

(** X12: the webhook never changes the role of an identity that already
    has a row: whatever the event, a row found afterwards either carries
    the role it had before or is new and carries [student]. *)
Theorem webhook_never_changes_a_role (verify : Verifier)
        (req : Webhook.Request) (s : State) (i : string) (row' : UserRow) :
  users (snd (serve verify req s)) !! i = Some row' ->
  (exists row, users s !! i = Some row /\ role row = role row')
  \/ (users s !! i = None /\ role row' = "student").
Proof.
  destruct (serve_effect verify req s) as [U _]. cbn zeta in U.
  destruct U as [U|[(j & e & N & U)|[(j & e & row & Sm & U)|(j & U)]]];
    rewrite U; clear U.
  - eauto.
  - destruct (decide (j = i)) as [->|Ne].
    + rewrite lookup_insert_eq. intros [= <-]. auto.
    + rewrite lookup_insert_ne by exact Ne. eauto.
  - destruct (decide (j = i)) as [->|Ne].
    + rewrite lookup_insert_eq. intros [= <-]. eauto.
    + rewrite lookup_insert_ne by exact Ne. eauto.
  - destruct (decide (j = i)) as [->|Ne].
    + rewrite lookup_delete_eq. discriminate.
    + rewrite lookup_delete_ne by exact Ne. eauto.
Qed.

Lemma webhook_never_changes_a_role_witness :
  (exists row,
      users oneStudent !! "u2" = Some row
      /\ role row = role {| email := "new@school.test"; role := "student" |})
  \/ (users oneStudent !! "u2" = None
      /\ role {| email := "new@school.test"; role := "student" |}
         = "student").
Proof.
  apply (webhook_never_changes_a_role
           (onlySignature "v1,good"
              (userEvent "user.updated" "u2" (Some "new@school.test")))
           (signed "v1,good") oneStudent "u2").
  reflexivity.
Defined.

(** An accepted [user.created] event with an email, for an identity
    without a row. *)
Lemma process_created_fresh (evt : Event) (e : string) (s : State) :
  type evt = "user.created" -> primaryEmail (data evt) = Some e ->
  e <> EmptyString -> dbOnline s = true ->
  users s !! id (data evt) = None ->
  users (snd (process evt s))
  = <[id (data evt) := {| email := e; role := "student" |}]> (users s)
  /\ clerkOutcomes (snd (process evt s)) = tail (clerkOutcomes s)
  /\ dbOnline (snd (process evt s)) = true
  /\ (if clerkUp s
      then fst (process evt s)
           = Normal {| Webhook.status := 200; text := "Webhook processed" |}
           /\ publicMetadataRole (snd (process evt s))
              = <[id (data evt) := "student"]> (publicMetadataRole s)
      else fst (process evt s)
           = Normal {| Webhook.status := 500;
                       text := "Error processing webhook" |}
           /\ publicMetadataRole (snd (process evt s))
              = publicMetadataRole s).
Proof.
  destruct evt as [ty d]. cbn [type data]. intros -> Pe Ne O E.
  unfold process, afterCreated, tryCatch, clerkUp. cbn [type data].
  rewrite Pe, (DecisionFacts.truthy_nonempty e Ne).
  unfold mbind, M_bind, bind, create, updateUserMetadata, updateEmail,
    deleteUser, log, reply, ret, mret, M_ret, withUsers.
  cbn. rewrite O, E. cbn.
  destruct (clerkOutcomes s) as [|[] rest]; cbn; rewrite ?O; auto.
Qed.

(** An accepted [user.created] event with an email, for an identity that
    already has a row: the insert fails and nothing else is tried. *)
Lemma process_created_existing (evt : Event) (e : string) (row : UserRow)
      (s : State) :
  type evt = "user.created" -> primaryEmail (data evt) = Some e ->
  e <> EmptyString ->
  users s !! id (data evt) = Some row ->
  fst (process evt s)
  = Normal {| Webhook.status := 500; text := "Error processing webhook" |}
  /\ users (snd (process evt s)) = users s
  /\ publicMetadataRole (snd (process evt s)) = publicMetadataRole s
  /\ clerkOutcomes (snd (process evt s)) = clerkOutcomes s.
Proof.
  destruct evt as [ty d]. cbn [type data]. intros -> Pe Ne E.
  unfold process, afterCreated, tryCatch. cbn [type data].
  rewrite Pe, (DecisionFacts.truthy_nonempty e Ne).
  unfold mbind, M_bind, bind, create, updateUserMetadata, updateEmail,
    deleteUser, log, reply, ret, mret, M_ret, withUsers.
  cbn. rewrite E. destruct (dbOnline s); cbn; auto.
Qed.

(** An accepted [user.deleted] event for an identity that has a row. *)
Lemma process_deleted (evt : Event) (row : UserRow) (s : State) :
  type evt = "user.deleted" -> dbOnline s = true ->
  users s !! id (data evt) = Some row ->
  fst (process evt s)
  = Normal {| Webhook.status := 200; text := "Webhook processed" |}
  /\ users (snd (process evt s)) = delete (id (data evt)) (users s)
  /\ publicMetadataRole (snd (process evt s)) = publicMetadataRole s.
Proof.
  destruct evt as [ty d]. cbn [type data]. intros -> O E.
  unfold process, afterCreated, tryCatch. cbn [type data].
  unfold mbind, M_bind, bind, create, updateUserMetadata, updateEmail,
    deleteUser, log, reply, ret, mret, M_ret, withUsers.
  cbn. rewrite O, E. cbn. auto.
Qed.

Lemma serve_accepted_parts (verify : Verifier) (req : Webhook.Request)
      (evt : Event) (s : State) (r : Reply) :
  accepted verify req = Some evt ->
  fst (process evt s) = Normal r ->
  serve verify req s = (r, snd (process evt s)).
Proof.
  intros A P. rewrite (serve_accepted verify req evt s A).
  destruct (process evt s) as [[r'|] s']; cbn in *; congruence.
Qed.

(** X13: a verified [user.created] event with an email, for an identity
    the table does not know, with the database and Clerk reachable, is
    answered 200; it creates the row with role [student], writes the same
    role to the claims, and from then on the route protector lets the
    identity into [/student] and into no other dashboard. *)
Theorem created_event_provisions (n : nat) (verify : Verifier)
        (req : Webhook.Request) (evt : Event) (e p : string) (s : State) :
  accepted verify req = Some evt ->
  type evt = "user.created" -> primaryEmail (data evt) = Some e ->
  e <> EmptyString -> id (data evt) <> EmptyString ->
  dbOnline s = true -> clerkUp s = true ->
  users s !! id (data evt) = None ->
  In p (RoutePolicy.keys RoutePolicy.DASHBOARD_ROUTES) ->
  exists s' w,
    serve verify req s
    = ({| Webhook.status := 200; text := "Webhook processed" |}, s')
    /\ users s' !! id (data evt) = Some {| email := e; role := "student" |}
    /\ publicMetadataRole s' !! id (data evt) = Some "student"
    /\ Protector.settle (S (S n)) (tokenFor s' p (id (data evt)))
         Protector.mount = Some w
    /\ Protector.decision w
       = (if String.eqb p "/student" then Protector.ALLOW
          else Protector.DENY).
Proof.
  intros A Ty Pe Ne Ni O C E Hp.
  destruct (process_created_fresh evt e s Ty Pe Ne O E) as (U & _ & _ & R).
  rewrite C in R. destruct R as [R M].
  exists (snd (process evt s)).
  assert (L : publicMetadataRole (snd (process evt s)) !! id (data evt)
              = Some "student") by (rewrite M; apply lookup_insert_eq).
  assert (T : tokenFor (snd (process evt s)) p (id (data evt))
              = signedIn p (id (data evt)) "student").
  { unfold tokenFor, signedIn. rewrite L. reflexivity. }
  destruct (Scenarios.signedIn_decision n Protector.mount (id (data evt))
              "student" p) as (w & S & D & _);
    [constructor | exact I | exact Ni | simpl; auto | exact Hp |].
  exists w. split; [apply serve_accepted_parts; assumption|].
  split; [rewrite U; apply lookup_insert_eq|].
  split; [exact L|]. rewrite T. split; [exact S | exact D].
Qed.

Lemma created_event_provisions_witness :
  exists s' w,
    serve (onlySignature "v1,good"
             (userEvent "user.created" "u7" (Some "u7@school.test")))
          (signed "v1,good") oneStudent
    = ({| Webhook.status := 200; text := "Webhook processed" |}, s')
    /\ users s' !! "u7"
       = Some {| email := "u7@school.test"; role := "student" |}
    /\ publicMetadataRole s' !! "u7" = Some "student"
    /\ Protector.settle 2 (tokenFor s' "/admin" "u7") Protector.mount
       = Some w
    /\ Protector.decision w
       = (if String.eqb "/admin" "/student" then Protector.ALLOW
          else Protector.DENY).
Proof.
  apply (created_event_provisions 0
           (onlySignature "v1,good"
              (userEvent "user.created" "u7" (Some "u7@school.test")))
           (signed "v1,good")
           (userEvent "user.created" "u7" (Some "u7@school.test"))
           "u7@school.test" "/admin" oneStudent);
    try reflexivity; try discriminate. simpl; auto.
Defined.

(** X14: when the role endpoint has created the row of an identity first
    (first-touch provisioning), a later verified [user.created] event for
    that identity is answered 500: the insert fails on the existing row,
    the email stays empty, Clerk is not called and the claims are left
    without the role. *)
Theorem created_event_after_first_touch (c : option string)
        (verify : Verifier) (req : Webhook.Request) (evt : Event)
        (e : string) (s : State) :
  id (data evt) <> EmptyString -> dbOnline s = true ->
  users s !! id (data evt) = None ->
  accepted verify req = Some evt ->
  type evt = "user.created" -> primaryEmail (data evt) = Some e ->
  e <> EmptyString ->
  let s1 := snd (RoleApi.serve (roleRequest c (id (data evt))) s) in
  let s2 := snd (serve verify req s1) in
  Webhook.status (fst (serve verify req s1)) = 500
  /\ users s2 !! id (data evt)
     = Some {| email := EmptyString; role := "student" |}
  /\ publicMetadataRole s2 = publicMetadataRole s
  /\ clerkOutcomes s2 = clerkOutcomes s.
Proof.
  intros Ni O E A Ty Pe Ne. cbn zeta.
  rewrite (role_serve_spec (roleRequest c (id (data evt))) (id (data evt)) s
             eq_refl (field_roleRequest c _) Ni O), E.
  cbn [snd].
  set (s1 := {| users := _ |}).
  assert (E1 : users s1 !! id (data evt)
               = Some {| email := EmptyString; role := "student" |})
    by apply lookup_insert_eq.
  destruct (process_created_existing evt e _ s1 Ty Pe Ne E1)
    as (R & U & M & C).
  rewrite (serve_accepted_parts verify req evt s1 _ A R). cbn [fst snd].
  split; [reflexivity|]. rewrite U, M, C. auto.
Qed.

Lemma created_event_after_first_touch_witness :
  Webhook.status
    (fst (serve (onlySignature "v1,good"
                   (userEvent "user.created" "u7" (Some "u7@school.test")))
                (signed "v1,good")
                (snd (RoleApi.serve (roleRequest None "u7") oneStudent))))
  = 500.
Proof.
  apply (created_event_after_first_touch None
           (onlySignature "v1,good"
              (userEvent "user.created" "u7" (Some "u7@school.test")))
           (signed "v1,good")
           (userEvent "user.created" "u7" (Some "u7@school.test"))
           "u7@school.test" oneStudent);
    try reflexivity; discriminate.
Defined.

(** X15: creating a row through a verified [user.created] event and then
    deleting it through a verified [user.deleted] event gives back the
    table as it was, whether or not Clerk could be reached in between. *)
Theorem created_then_deleted (v1 v2 : Verifier) (r1 r2 : Webhook.Request)
        (created deleted : Event) (e : string) (s : State) :
  accepted v1 r1 = Some created -> accepted v2 r2 = Some deleted ->
  type created = "user.created" -> type deleted = "user.deleted" ->
  id (data deleted) = id (data created) ->
  primaryEmail (data created) = Some e -> e <> EmptyString ->
  dbOnline s = true -> users s !! id (data created) = None ->
  Webhook.status (fst (serve v2 r2 (snd (serve v1 r1 s)))) = 200
  /\ users (snd (serve v2 r2 (snd (serve v1 r1 s)))) = users s.
Proof.
  intros A1 A2 T1 T2 Ei Pe Ne O E.
  destruct (process_created_fresh created e s T1 Pe Ne O E)
    as (U & _ & O1 & R).
  assert (exists r, fst (process created s) = Normal r) as [r Pr]
    by (destruct (clerkUp s); destruct R; eauto).
  rewrite (serve_accepted_parts v1 r1 created s r A1 Pr). cbn [snd].
  assert (E1 : users (snd (process created s)) !! id (data deleted)
               = Some {| email := e; role := "student" |})
    by (rewrite U, Ei; apply lookup_insert_eq).
  destruct (process_deleted deleted _ _ T2 O1 E1) as (R2 & U2 & _).
  rewrite (serve_accepted_parts v2 r2 deleted _ _ A2 R2). cbn [fst snd].
  split; [reflexivity|].
  rewrite U2, U, Ei. apply delete_insert_id. exact E.
Qed.

Lemma created_then_deleted_witness :
  users
    (snd (serve (onlySignature "v1,bye" (userEvent "user.deleted" "u7" None))
                (signed "v1,bye")
                (snd (serve (onlySignature "v1,good"
                               (userEvent "user.created" "u7"
                                  (Some "u7@school.test")))
                            (signed "v1,good") oneStudent))))
  = users oneStudent.
Proof.
  apply (created_then_deleted
           (onlySignature "v1,good"
              (userEvent "user.created" "u7" (Some "u7@school.test")))
           (onlySignature "v1,bye" (userEvent "user.deleted" "u7" None))
           (signed "v1,good") (signed "v1,bye")
           (userEvent "user.created" "u7" (Some "u7@school.test"))
           (userEvent "user.deleted" "u7" None)
           "u7@school.test" oneStudent);
    try reflexivity; discriminate.
Defined.

End WebhookFacts.

(** ** An invariant of the three endpoints *)

Module InvariantFacts.
Import Js Backend Spec Samples ApiFacts.

Lemma role_effect (req : Request) (s : State) :
  let s' := snd (RoleApi.serve req s) in
  (users s' = users s
   \/ exists i e,
       users s' = <[i := {| email := e; role := "student" |}]> (users s))
  /\ publicMetadataRole s' = publicMetadataRole s.
Proof.
  cbn zeta. unfold RoleApi.serve, RoleApi.handler, answer, tryCatch.
  destruct (String.eqb (method req) "POST"); cbn [negb]; [|cbn; auto].
  destruct (field req "userId") as [| |i|t];
    cbn [truthyValue isString negb orb];
    try (cbn; solve [auto]); try (destruct t; cbn; solve [auto]).
  destruct (String.eqb i EmptyString); cbn [negb orb]; [cbn; auto|].
  unfold mbind, M_bind, bind, findUnique, create, log, respond, ret,
    withUsers.
  destruct (dbOnline s) eqn:O; [|cbn; auto].
  destruct (users s !! i) as [row|] eqn:E; cbn; [auto|].
  rewrite O, E. cbn. eauto.
Qed.

Lemma update_effect (req : Request) (s : State) :
  let s' := snd (UpdateRoleApi.serve req s) in
  (users s' = users s
   \/ exists i e r,
       In r UpdateRoleApi.validRoles
       /\ users s' = <[i := {| email := e; role := r |}]> (users s))
  /\ (publicMetadataRole s' = publicMetadataRole s
      \/ exists i r,
          In r UpdateRoleApi.validRoles
          /\ publicMetadataRole s' = <[i := r]> (publicMetadataRole s)).
Proof.
  cbn zeta. unfold UpdateRoleApi.serve, UpdateRoleApi.handler, answer,
    tryCatch.
  destruct (String.eqb (method req) "POST"); cbn [negb]; [|cbn; auto].
  destruct (field req "userId") as [| |i|t];
    cbn [truthyValue isString negb orb];
    try (cbn; solve [auto]); try (destruct t; cbn; solve [auto]).
  destruct (String.eqb i EmptyString); cbn [negb orb]; [cbn; auto|].
  destruct (field req "newRole") as [| |r|t];
    cbn [truthyValue UpdateRoleApi.includesValue negb orb];
    try (cbn; solve [auto]); try (destruct t; cbn; solve [auto]).
  destruct (String.eqb r EmptyString); cbn [negb orb]; [cbn; auto|].
  destruct (includes UpdateRoleApi.validRoles r) eqn:I; cbn [negb];
    [|cbn; auto].
  assert (Hr : In r UpdateRoleApi.validRoles).
  { unfold includes in I. apply existsb_exists in I as (x & Hx & Ex).
    apply String.eqb_eq in Ex. subst x. exact Hx. }
  unfold mbind, M_bind, bind, update, updateUserMetadata, log, respond, ret,
    withUsers.
  destruct (dbOnline s); [|cbn; auto].
  destruct (users s !! i) as [row|]; [|cbn; auto].
  destruct (clerkOutcomes s) as [|[] rest]; cbn;
    (split;
     [ right; exists i, (email row), r; split; [exact Hr | reflexivity]
     | first [ right; exists i, r; split; [exact Hr | reflexivity]
             | left; reflexivity ] ]).
Qed.

Lemma valid_insert_row (m : gmap string UserRow) (i : string)
      (row : UserRow) :
  In (role row) UpdateRoleApi.validRoles ->
  (forall j x, m !! j = Some x -> In (role x) UpdateRoleApi.validRoles) ->
  forall j x, <[i := row]> m !! j = Some x ->
         In (role x) UpdateRoleApi.validRoles.
Proof.
  intros Hr Hm j x. destruct (decide (i = j)) as [->|Ne].
  - rewrite lookup_insert_eq. intros [= <-]. exact Hr.
  - rewrite lookup_insert_ne by exact Ne. apply Hm.
Qed.

Lemma valid_insert_claim (m : gmap string string) (i r : string) :
  In r UpdateRoleApi.validRoles ->
  (forall j x, m !! j = Some x -> In x UpdateRoleApi.validRoles) ->
  forall j x, <[i := r]> m !! j = Some x -> In x UpdateRoleApi.validRoles.
Proof.
  intros Hr Hm j x. destruct (decide (i = j)) as [->|Ne].
  - rewrite lookup_insert_eq. intros [= <-]. exact Hr.
  - rewrite lookup_insert_ne by exact Ne. apply Hm.
Qed.

Lemma student_valid : In "student" UpdateRoleApi.validRoles.
Proof. simpl. auto. Qed.

(** X8: none of the three endpoints ever stores a role outside [admin],
    [teacher], [student], [parent]: if every role in the table and in the
    claims is one of the four, it is so again after any request to the
    role endpoint, to the update endpoint or to the webhook, accepted or
    not. *)
Theorem endpoints_keep_roles_valid (s : State) :
  RolesValid s ->
  (forall req, RolesValid (snd (RoleApi.serve req s)))
  /\ (forall req, RolesValid (snd (UpdateRoleApi.serve req s)))
  /\ (forall verify req, RolesValid (snd (Webhook.serve verify req s))).
Proof.
  intros [Vu Vc]. split; [|split].
  - intros req. destruct (role_effect req s) as [U C]. cbn zeta in U, C.
    split; rewrite ?C; [|exact Vc].
    destruct U as [U|(i & e & U)]; rewrite U; [exact Vu|].
    apply valid_insert_row; [exact student_valid | exact Vu].
  - intros req. destruct (update_effect req s) as [U C]. cbn zeta in U, C.
    split.
    + destruct U as [U|(i & e & r & Hr & U)]; rewrite U; [exact Vu|].
      apply valid_insert_row; [exact Hr | exact Vu].
    + destruct C as [C|(i & r & Hr & C)]; rewrite C; [exact Vc|].
      apply valid_insert_claim; [exact Hr | exact Vc].
  - intros verify req.
    destruct (WebhookFacts.serve_effect verify req s) as [U C].
    cbn zeta in U, C. split.
    + destruct U as [U|[(i & e & N & U)|[(i & e & row & Sm & U)|(i & U)]]];
        rewrite U; [exact Vu| | |].
      * apply valid_insert_row; [exact student_valid | exact Vu].
      * apply valid_insert_row; [exact (Vu i row Sm) | exact Vu].
      * intros j x. destruct (decide (i = j)) as [->|Ne].
        -- rewrite lookup_delete_eq. discriminate.
        -- rewrite lookup_delete_ne by exact Ne. apply Vu.
    + destruct C as [C|(i & C)]; rewrite C; [exact Vc|].
      apply valid_insert_claim; [exact student_valid | exact Vc].
Qed.

Lemma oneStudent_valid : RolesValid oneStudent.
Proof.
  split; intros i x; cbn [users publicMetadataRole oneStudent];
    rewrite lookup_singleton_Some; intros [_ <-]; simpl; auto.
Qed.

Lemma endpoints_keep_roles_valid_witness :
  RolesValid
    (snd (UpdateRoleApi.serve (updateRequest None "u2" "parent") oneStudent)).
Proof.
  destruct (endpoints_keep_roles_valid oneStudent oneStudent_valid)
    as (_ & H & _).
  apply H.
Defined.

End InvariantFacts.

(** ** The demo sign-in state *)

Module DemoAuthFacts.
Import Js DemoAuth Samples.

Lemma usable_split (b : Browser) :
  hasWindow b = true -> storageWorks b = true ->
  hasWindow b && storageWorks b = true.
Proof. intros -> ->. reflexivity. Qed.

Lemma getAuth_setAuth (j : Json) (r : string) (b : Browser) :
  hasWindow b = true -> storageWorks b = true ->
  parse j (stringify j {| role := Some r; authenticated := true |})
  = Normal {| role := Some r; authenticated := true |} ->
  stringify j {| role := Some r; authenticated := true |} <> EmptyString ->
  getAuth j (setAuth j r b) = {| role := Some r; authenticated := true |}.
Proof.
  intros W S P N.
  unfold getAuth, setAuth. rewrite (usable_split b W S).
  cbn [hasWindow storageWorks items dispatchEvent withItems]. rewrite W, S.
  rewrite lookup_insert_ne by discriminate. rewrite lookup_insert_eq.
  rewrite (DecisionFacts.truthy_nonempty _ N). cbn [negb].
  rewrite P. reflexivity.
Qed.

Lemma getAuth_clearAuth (j : Json) (b : Browser) :
  getAuth j (clearAuth b) = unauthenticated.
Proof.
  unfold getAuth, clearAuth.
  destruct (hasWindow b) eqn:W, (storageWorks b) eqn:S;
    cbn [andb hasWindow storageWorks items dispatchEvent withItems];
    rewrite ?W, ?S; try reflexivity.
  rewrite lookup_delete_eq. reflexivity.
Qed.

(** X16: with a usable localStorage and a JSON codec that reads back what
    it wrote, signing in is remembered: after [setAuth(role)], [getAuth]
    returns that role as authenticated, [isAuthenticated] is true, [getRole]
    is the role, and the two events were dispatched in order. *)
Theorem setAuth_then_getAuth (j : Json) (r : string) (b : Browser) :
  hasWindow b = true -> storageWorks b = true ->
  parse j (stringify j {| role := Some r; authenticated := true |})
  = Normal {| role := Some r; authenticated := true |} ->
  stringify j {| role := Some r; authenticated := true |} <> EmptyString ->
  getAuth j (setAuth j r b) = {| role := Some r; authenticated := true |}
  /\ isAuthenticated j (setAuth j r b) = true
  /\ getRole j (setAuth j r b) = Some r
  /\ dispatched (setAuth j r b)
     = dispatched b ++ ["sma_auth_change"; "sma_show_signin"].
Proof.
  intros W S P N.
  pose proof (getAuth_setAuth j r b W S P N) as G.
  unfold isAuthenticated, getRole. rewrite G. repeat split.
  unfold setAuth. rewrite (usable_split b W S).
  cbn [dispatched dispatchEvent withItems]. rewrite <- app_assoc. reflexivity.
Qed.

Lemma setAuth_then_getAuth_witness :
  getAuth sampleJson (setAuth sampleJson "teacher" freshBrowser)
  = {| role := Some "teacher"; authenticated := true |}
  /\ isAuthenticated sampleJson (setAuth sampleJson "teacher" freshBrowser)
     = true
  /\ getRole sampleJson (setAuth sampleJson "teacher" freshBrowser)
     = Some "teacher"
  /\ dispatched (setAuth sampleJson "teacher" freshBrowser)
     = dispatched freshBrowser ++ ["sma_auth_change"; "sma_show_signin"].
Proof.
  apply (setAuth_then_getAuth sampleJson "teacher" freshBrowser);
    [reflexivity | reflexivity | reflexivity | discriminate].
Defined.



Lemma setAuth_usable (j : Json) (r : string) (b : Browser) :
  hasWindow b = true -> storageWorks b = true ->
  setAuth j r b =
  {| hasWindow := true;
     storageWorks := true;
     items :=
       <[ "sma_show_signin_loader" := "1" ]>
         (<[ AUTH_KEY :=
               stringify j {| role := Some r; authenticated := true |} ]>
            (items b));
     dispatched :=
       (dispatched b ++ ["sma_auth_change"]) ++ ["sma_show_signin"] |}.
Proof.
  intros W S. unfold setAuth, dispatchEvent, withItems. rewrite W, S.
  reflexivity.
Qed.

(** X18: the sign-in loader flag: [setAuth] raises it, so the loader shows
    on the next mount; [clearAuth] leaves it up, so signing out before the
    timer has fired does not cancel the loader; the timer takes it down and
    leaves the sign-in state untouched. *)
Theorem signin_loader_flag (j : Json) (r : string) (b : Browser) :
  hasWindow b = true -> storageWorks b = true ->
  signInLoaderOnMount (setAuth j r b) = true
  /\ signInLoaderOnMount (clearAuth (setAuth j r b)) = true
  /\ signInLoaderOnMount (signInLoaderTimer (setAuth j r b)) = false
  /\ getAuth j (signInLoaderTimer (setAuth j r b)) = getAuth j (setAuth j r b).
Proof.
  intros W S. rewrite (setAuth_usable j r b W S).
  unfold signInLoaderOnMount, signInLoaderTimer, clearAuth, getAuth,
    dispatchEvent, withItems.
  cbn [hasWindow storageWorks items dispatched andb].
  repeat split.
  - rewrite lookup_insert_eq. apply bool_decide_eq_true_2. reflexivity.
  - rewrite lookup_delete_ne by discriminate. rewrite lookup_insert_eq.
    apply bool_decide_eq_true_2. reflexivity.
  - rewrite lookup_delete_eq. apply bool_decide_eq_false_2. discriminate.
  - rewrite lookup_delete_ne by discriminate. reflexivity.
Qed.

Lemma signin_loader_flag_witness :
  signInLoaderOnMount (setAuth sampleJson "student" freshBrowser) = true
  /\ signInLoaderOnMount
       (clearAuth (setAuth sampleJson "student" freshBrowser)) = true
  /\ signInLoaderOnMount
       (signInLoaderTimer (setAuth sampleJson "student" freshBrowser))
     = false
  /\ getAuth sampleJson
       (signInLoaderTimer (setAuth sampleJson "student" freshBrowser))
     = getAuth sampleJson (setAuth sampleJson "student" freshBrowser).
Proof.
  apply (signin_loader_flag sampleJson "student" freshBrowser); reflexivity.
Defined.

End DemoAuthFacts.

(** ** The side menu, the page loader and the theme script *)

Module MenuFacts.
Import Js RoutePolicy Protector Spec ProtectorFacts DecisionFacts SideMenu
       Samples.

Lemma entries_are_list_routes (item : MenuItem) :
  In item allItems -> label item <> "Home" ->
  isProtectedRoute (href item) = true
  /\ getDashboardRoute (href item) = None.
Proof.
  intros Hi Nh. cbv [allItems menuItems concat map snd app] in Hi.
  repeat destruct Hi as [<-|Hi]; try contradiction; split; reflexivity.
Qed.

(** X19: every entry of the menu except Home points at a protected path
    outside the dashboards, so the route protector lets every signed-in
    user in there, whatever the role: what the menu hides from a role
    (Subjects from a teacher, Teachers from a student) is not closed to
    that role by the protector. *)
Theorem menu_entries_open_to_any_role (n : nat) (item : MenuItem)
        (h : Hooks) (w : World) :
  In item allItems -> label item <> "Home" ->
  Reachable w -> Navigates w h ->
  pathname h = Some (href item) ->
  isLoaded h = true -> truthy (userId h) = true ->
  exists w',
    settle (S (S n)) h w = Some w'
    /\ decision w' = ALLOW
    /\ isAuthLoading w' = false.
Proof.
  intros Hi Nh R N E L U.
  destruct (entries_are_list_routes item Hi Nh) as [P D].
  destruct (settle_navigation n h w R N L) as (w' & S & _ & _ & Dn & _ & F).
  rewrite (ProtectorMore.effect2_list_route h (href item) (loadedState h)
             E P D L eq_refl U) in Dn, F.
  exists w'. auto.
Qed.

Lemma menu_entries_open_to_any_role_witness :
  exists w',
    settle 2 (signedIn "/list/subjects" "user_1" "student") mount = Some w'
    /\ decision w' = ALLOW
    /\ isAuthLoading w' = false.
Proof.
  apply (menu_entries_open_to_any_role 0
           {| label := "Subjects"; href := "/list/subjects";
              visible := [ "admin" ] |}
           (signedIn "/list/subjects" "user_1" "student") mount);
    [ cbv [allItems menuItems concat map snd app]; simpl; auto 10
    | discriminate | constructor | exact I | reflexivity | reflexivity
    | reflexivity ].
Defined.

(** X20: Home sends a user whose demo role is one of the four to the
    dashboard of that role; the route protector lets the user in there
    exactly when the role in the Clerk claims is the same one, and sends
    the user to the sign-in page otherwise. *)
Theorem home_lands_on_own_dashboard (n : nat) (item : MenuItem)
        (lastPath uid demo claimed : string) :
  In demo ROLES -> In claimed ROLES -> uid <> EmptyString ->
  homeTarget (Some demo) item = "/" +:+ demo
  /\ In (Push ("/" +:+ demo)) (handleHome (Some demo) lastPath item)
  /\ exists w,
      settle (S (S n)) (signedIn ("/" +:+ demo) uid claimed) mount = Some w
      /\ decision w = (if String.eqb demo claimed then ALLOW else DENY).
Proof.
  intros Hd Hc U.
  assert (T : homeTarget (Some demo) item = "/" +:+ demo).
  { unfold homeTarget. simpl in Hd.
    repeat destruct Hd as [<-|Hd]; try contradiction; reflexivity. }
  split; [exact T|]. split.
  - unfold handleHome. rewrite T. apply in_or_app. right. simpl. auto.
  - destruct (Scenarios.signedIn_decision n mount uid claimed ("/" +:+ demo))
      as (w & S & D & _);
      [ constructor | exact I | exact U | exact Hc
      | simpl in Hd |- *;
        repeat destruct Hd as [<-|Hd]; try contradiction; auto |].
    exists w. split; [exact S|]. rewrite D.
    change (String.eqb ("/" +:+ demo) ("/" +:+ claimed))
      with (String.eqb demo claimed).
    reflexivity.
Qed.

Lemma home_lands_on_own_dashboard_witness :
  homeTarget (Some "admin")
    {| label := "Home"; href := "/"; visible := everyone |} = "/" +:+ "admin"
  /\ In (Push ("/" +:+ "admin"))
        (handleHome (Some "admin") "/list/exams"
           {| label := "Home"; href := "/"; visible := everyone |})
  /\ exists w,
      settle 2 (signedIn ("/" +:+ "admin") "user_1" "student") mount = Some w
      /\ decision w = (if String.eqb "admin" "student" then ALLOW else DENY).
Proof.
  apply (home_lands_on_own_dashboard 0
           {| label := "Home"; href := "/"; visible := everyone |}
           "/list/exams" "user_1" "admin" "student");
    [simpl; auto | simpl; auto | discriminate].
Defined.

(** X24: the menu follows the demo sign-in state: after [setAuth(role)]
    (usable storage, a codec that reads back what it wrote) it renders the
    entries of that role whatever the static demo role is; after
    [clearAuth] it falls back to the entries of the static demo role, and
    Home leads to the entry's own [href] again. *)
Theorem menu_follows_demo_auth (j : DemoAuth.Json) (r demoRole : string)
        (b : DemoAuth.Browser) (item : MenuItem) :
  DemoAuth.hasWindow b = true -> DemoAuth.storageWorks b = true ->
  DemoAuth.parse j
    (DemoAuth.stringify j
       {| DemoAuth.role := Some r; DemoAuth.authenticated := true |})
  = Normal {| DemoAuth.role := Some r; DemoAuth.authenticated := true |} ->
  DemoAuth.stringify j
    {| DemoAuth.role := Some r; DemoAuth.authenticated := true |}
  <> EmptyString ->
  rendered (effectiveRole demoRole (currentRoleOf j (DemoAuth.setAuth j r b)))
  = rendered r
  /\ rendered
       (effectiveRole demoRole
          (currentRoleOf j (DemoAuth.clearAuth (DemoAuth.setAuth j r b))))
     = rendered demoRole
  /\ homeTarget
       (currentRoleOf j (DemoAuth.clearAuth (DemoAuth.setAuth j r b))) item
     = href item.
Proof.
  intros W S P N.
  unfold currentRoleOf, DemoAuth.isAuthenticated, DemoAuth.getRole.
  rewrite (DemoAuthFacts.getAuth_setAuth j r b W S P N).
  rewrite (DemoAuthFacts.getAuth_clearAuth j).
  repeat split.
Qed.

Lemma menu_follows_demo_auth_witness :
  rendered (effectiveRole "admin"
              (currentRoleOf sampleJson
                 (DemoAuth.setAuth sampleJson "student" freshBrowser)))
  = rendered "student"
  /\ rendered (effectiveRole "admin"
                 (currentRoleOf sampleJson
                    (DemoAuth.clearAuth
                       (DemoAuth.setAuth sampleJson "student" freshBrowser))))
     = rendered "admin"
  /\ homeTarget
       (currentRoleOf sampleJson
          (DemoAuth.clearAuth
             (DemoAuth.setAuth sampleJson "student" freshBrowser)))
       {| label := "Home"; href := "/"; visible := everyone |}
     = href {| label := "Home"; href := "/"; visible := everyone |}.
Proof.
  apply (menu_follows_demo_auth sampleJson "student" "admin" freshBrowser);
    [reflexivity | reflexivity | reflexivity | discriminate].
Defined.

(** X21: the role decides what the menu shows: an admin is shown every
    entry, every other role a part of them, and a role that is none of the
    four is shown an empty menu. *)
Theorem menu_visibility (r : string) :
  rendered "admin" = allItems
  /\ (forall item, In item (rendered r) -> In item (rendered "admin"))
  /\ (~ In r everyone -> rendered r = []).
Proof.
  assert (A : rendered "admin" = allItems) by reflexivity.
  split; [exact A|]. split.
  - intros item Hi. rewrite A. apply list_elem_of_In.
    apply list_elem_of_In in Hi. unfold rendered in Hi.
    apply list_elem_of_filter in Hi as [_ Hi]. exact Hi.
  - intros Nr. unfold rendered.
    assert (V : forall item, In item allItems ->
                  includes (visible item) r = false).
    { intros item Hi. unfold includes. apply not_true_is_false. intros Ex.
      apply existsb_exists in Ex as (x & Hx & Ex).
      apply String.eqb_eq in Ex. subst x. apply Nr.
      cbv [allItems menuItems concat map snd app] in Hi.
      repeat destruct Hi as [<-|Hi]; try contradiction;
        cbn [visible] in Hx; unfold staff, everyone in *; simpl in Hx |- *;
        intuition. }
    revert V. generalize allItems. intros l.
    induction l as [|item l IH]; intros V; [reflexivity|].
    rewrite filter_cons. rewrite (V item (or_introl eq_refl)).
    rewrite decide_False by discriminate.
    apply IH. intros i Hi. apply V. right. exact Hi.
Qed.

Lemma menu_visibility_witness : rendered "janitor" = [].
Proof.
  destruct (menu_visibility "janitor") as (_ & _ & H). apply H.
  unfold everyone. simpl. intros [H1|[H1|[H1|[H1|[]]]]]; discriminate H1.
Defined.



(** X23: the theme script, with its two ways to fail kept apart. Where
    the storage can be read and written the script leaves the stored
    preference at [dark] or [light], [dark] exactly when it was [dark]
    before, marks the theme as applied, logs nothing, and a second run
    changes nothing. Where reading throws, nothing changes but the
    console. Where reading works and writing throws, the stored preference
    and the mark stay as they were and the error is logged, but the [dark]
    class was already added if [dark] was stored. In every case the
    [dark] class is on the root element afterwards exactly when it was
    there before or [dark] was stored and could be read: the script adds
    it and never takes it away. *)
Theorem theme_script_normalises (p : Theme.Page) :
  (Theme.getItemWorks p = true -> Theme.setItemWorks p = true ->
   Theme.script (Theme.script p) = Theme.script p
   /\ Theme.saved (Theme.script p)
      = Some (if bool_decide (Theme.saved p = Some "dark")
              then "dark" else "light")
   /\ Theme.themeApplied (Theme.script p) = true
   /\ Theme.consoleErrors (Theme.script p) = Theme.consoleErrors p)
  /\ (Theme.getItemWorks p = false ->
      Theme.script p = Theme.logError p)
  /\ (Theme.getItemWorks p = true -> Theme.setItemWorks p = false ->
      Theme.saved (Theme.script p) = Theme.saved p
      /\ Theme.themeApplied (Theme.script p) = Theme.themeApplied p
      /\ Theme.consoleErrors (Theme.script p) = S (Theme.consoleErrors p))
  /\ Theme.darkClass (Theme.script p)
     = Theme.darkClass p
       || (Theme.getItemWorks p && bool_decide (Theme.saved p = Some "dark")).
Proof.
  destruct p as [g s sv dc ta ce].
  unfold Theme.script, Theme.getItem, Theme.setItem. cbn.
  destruct g, s; cbn;
    destruct (bool_decide (sv = Some "dark")) eqn:E; cbn;
    rewrite ?orb_true_r, ?orb_false_r;
    repeat split; try reflexivity; try discriminate.
Qed.

Lemma theme_script_normalises_witness :
  (Theme.saved (Theme.script Theme.darkStoredReadOnly) = Some "dark"
   /\ Theme.themeApplied (Theme.script Theme.darkStoredReadOnly) = false
   /\ Theme.consoleErrors (Theme.script Theme.darkStoredReadOnly) = 1)
  /\ Theme.darkClass (Theme.script Theme.darkStoredReadOnly) = true
  /\ Theme.script (Theme.script Theme.unknownStored)
     = Theme.script Theme.unknownStored
  /\ Theme.saved (Theme.script Theme.unknownStored) = Some "light"
  /\ Theme.script Theme.darkStoredUnreadable
     = Theme.logError Theme.darkStoredUnreadable.
Proof.
  destruct (theme_script_normalises Theme.darkStoredReadOnly)
    as (_ & _ & W & D).
  destruct (theme_script_normalises Theme.unknownStored) as (N & _).
  destruct (theme_script_normalises Theme.darkStoredUnreadable)
    as (_ & U & _).
  split; [exact (W eq_refl eq_refl)|]. split; [exact D|].
  destruct (N eq_refl eq_refl) as (N1 & N2 & _).
  split; [exact N1|]. split; [exact N2|]. exact (U eq_refl).
Defined.

End MenuFacts.
